(** * OCPP 1.6 solar charge-profile server: model and properties

    A shallow embedding of [server.py] and [solar_api.py].  The server
    accepts one WebSocket connection per charge point, answers its calls and
    pushes a charging profile (a clear call followed by a set call) whenever
    the solar reading, clamped to a floor of 240, differs from the cap it
    recorded last.

    Python values that come out of JSON are modelled by [json]; numbers are
    exact rationals, which is faithful here because the program only ever
    compares them.  Everything the program reaches outside itself (system
    clock, inverter HTTP endpoint, id generator, schema validator, the
    connection) is an oracle in [Env], indexed by how often it has been
    used; [World] holds those counters together with what was put on the
    connection and into the log.  Python exceptions are the [Raise] outcome
    of [Result]; state changes made before a raise persist, as they do in
    Python. *)

From Stdlib Require Import ZArith QArith Bool List String Ascii Lia.
Import ListNotations.
Local Open Scope string_scope.
Local Open Scope Z_scope.

(* ================================================================== *)
(** ** Python values and strings *)
(* ================================================================== *)

(** A value as produced by [json.loads] or built from literals: [None], a
    [bool], a number, a [str], a [list], or a [dict] in insertion order (a
    [dict] has no duplicate keys; lookups take the first binding). *)
#[local] Unset Elimination Schemes.
Inductive json : Type :=
| JNull
| JBool (b : bool)
| JNum (q : Q)
| JStr (s : string)
| JArr (items : list json)
| JObj (members : list (string * json)).
#[local] Set Elimination Schemes.

Definition is_none (v : json) : bool :=
  match v with JNull => true | _ => false end.

Fixpoint assoc {A : Type} (k : string) (kv : list (string * A)) : option A :=
  match kv with
  | [] => None
  | (k', v) :: rest => if String.eqb k k' then Some v else assoc k rest
  end.

(** [x] seen as a number by Python's comparison operators: [bool] is a
    subclass of [int]; any other non-number makes [<] with an [int] raise
    [TypeError]. *)
Definition as_number (v : json) : option Q :=
  match v with
  | JNum q => Some q
  | JBool true => Some 1%Q
  | JBool false => Some 0%Q
  | _ => None
  end.

Definition Qltb (a b : Q) : bool :=
  match Qcompare a b with Lt => true | _ => false end.

(** [v == 'W'] for a value [v] and a string literal. *)
Definition py_eq_str (v : json) (s : string) : bool :=
  match v with JStr t => String.eqb t s | _ => false end.

(** Truthiness of an optional string ([None] and [''] are falsy). *)
Definition truthy (o : option string) : bool :=
  match o with
  | None => false
  | Some s => negb (String.eqb s EmptyString)
  end.

Section Strings.

Definition is_upper (c : ascii) : bool :=
  ((65 <=? nat_of_ascii c) && (nat_of_ascii c <=? 90))%nat.

Definition is_lower (c : ascii) : bool :=
  ((97 <=? nat_of_ascii c) && (nat_of_ascii c <=? 122))%nat.

Definition upper (c : ascii) : ascii :=
  if is_lower c then ascii_of_nat (nat_of_ascii c - 32) else c.

Definition lower (c : ascii) : ascii :=
  if is_upper c then ascii_of_nat (nat_of_ascii c + 32) else c.

(** [s.lstrip(c)] *)
Fixpoint lstrip (c : ascii) (s : string) : string :=
  match s with
  | EmptyString => EmptyString
  | String a rest => if Ascii.eqb a c then lstrip c rest else s
  end.

(** [s.rstrip(c)] *)
Fixpoint rstrip (c : ascii) (s : string) : string :=
  match s with
  | EmptyString => EmptyString
  | String a rest =>
      match rstrip c rest with
      | EmptyString => if Ascii.eqb a c then EmptyString else String a EmptyString
      | r => String a r
      end
  end.

(** [s.strip(c)] for a one-character argument. *)
Definition strip (c : ascii) (s : string) : string :=
  rstrip c (lstrip c s).

(** [s[:-n]] for [n > 0]. *)
Definition drop_last (n : nat) (s : string) : string :=
  substring 0 (String.length s - n) s.

(** [s.split(c)] as a non-empty list, given the piece being read. *)
Fixpoint split_from (c : ascii) (acc : string) (s : string) : list string :=
  match s with
  | EmptyString => [acc]
  | String a rest =>
      if Ascii.eqb a c then acc :: split_from c EmptyString rest
      else split_from c (acc ++ String a EmptyString) rest
  end.

Definition split (c : ascii) (s : string) : list string :=
  split_from c EmptyString s.

(** [x[:1].upper() + x[1:]] *)
Definition capitalize_first (s : string) : string :=
  match s with
  | EmptyString => EmptyString
  | String a rest => String (upper a) rest
  end.

End Strings.

(* ================================================================== *)
(** ** Outcomes, environment and state *)
(* ================================================================== *)

Inductive Exn : Type :=
| KeyError
| TypeError
| AttributeError
| RequestException      (* requests.get failed, or the body is not JSON *)
| ValidationError       (* raised by validate_payload *)
| ConnectionClosed.     (* raised by send / recv on a dead connection *)

Inductive Result (A : Type) : Type :=
| Ok (a : A)
| Raise (e : Exn).
Arguments Ok {A} a.
Arguments Raise {A} e.

(** A reading of the system clock: the fields the program looks at. *)
Record DateTime : Type := mkDateTime {
  minute : Z;
  isoformat : string
}.

(** [ocpp.messages.Call] *)
Record Call : Type := mkCall {
  unique_id : string;
  action : string;
  payload : json
}.

(** A text frame received from the charge point: JSON text, or text that
    does not parse. *)
Inductive Message : Type :=
| Text (j : json)
| Garbage (s : string).

(** What happened on the connection, oldest first.  A sent frame is
    recorded as the JSON value whose text rendering was handed to
    [connection.send]. *)
Inductive Event : Type :=
| Sent (frame : json)
| Received (m : Message)
| Closed.

Inductive LogRecord : Type :=
| LogInfo (fmt : string) (args : list json)
| LogWarning (fmt : string) (args : list json)
| LogError (fmt : string) (args : list json)
| Printed (args : list json).

(** The world outside the program.  [validate_payload] is the ocpp
    package's schema validator ([true]: it returns, [false]: it raises). *)
Record Env : Type := mkEnv {
  clock : nat -> DateTime;
  inverter : nat -> Result json;
  uuid4 : nat -> string;
  validate_payload : Call -> string -> bool;
  conn_send : nat -> bool;
  conn_recv : nat -> Result Message
}.

Record World : Type := mkWorld {
  clock_reads : nat;
  http_gets : nat;
  ids_made : nat;
  sends : nat;
  recvs : nat;
  wire : list Event;
  log : list LogRecord
}.

(** The [ChargePoint] object: the attributes this program reads or
    writes ([_ocpp_version] is the constant of [ocpp.v16]). *)
Record ChargePoint : Type := mkChargePoint {
  id : string;
  _last_profile_sent : Z;
  _last_max_charge : Q
}.

Definition _ocpp_version : string := "1.6".

Record State : Type := mkState {
  self : ChargePoint;
  world : World
}.

Definition M (A : Type) : Type := Env -> State -> Result A * State.

Definition ret {A} (a : A) : M A := fun _ st => (Ok a, st).

Definition raise {A} (e : Exn) : M A := fun _ st => (Raise e, st).

Definition bind {A B} (m : M A) (k : A -> M B) : M B :=
  fun env st =>
    match m env st with
    | (Ok a, st') => k a env st'
    | (Raise e, st') => (Raise e, st')
    end.

Declare Scope py_scope.
Delimit Scope py_scope with py.
Notation "x <- m ;; k" := (bind m (fun x => k))
  (at level 61, m at next level, right associativity) : py_scope.
Notation "' pat <- m ;; k" := (bind m (fun x => match x with pat => k end))
  (at level 61, pat pattern, m at next level, right associativity) : py_scope.
Notation "m ;; k" := (bind m (fun _ => k))
  (at level 61, right associativity) : py_scope.
Local Open Scope py_scope.

Definition ask : M Env := fun env st => (Ok env, st).
Definition get : M State := fun _ st => (Ok st, st).
Definition put (st : State) : M unit := fun _ _ => (Ok tt, st).

Definition modify_world (f : World -> World) : M unit :=
  fun _ st => (Ok tt, mkState (self st) (f (world st))).

Definition modify_self (f : ChargePoint -> ChargePoint) : M unit :=
  fun _ st => (Ok tt, mkState (f (self st)) (world st)).

Definition of_result {A} (r : Result A) : M A :=
  match r with Ok a => ret a | Raise e => raise e end.

Definition outcome {A} (r : Result A * State) : Result A := fst r.
Definition final {A} (r : Result A * State) : State := snd r.

(* ================================================================== *)
(** ** Primitive effects *)
(* ================================================================== *)

Section WorldUpdates.

Definition tick_clock (w : World) : World :=
  mkWorld (S (clock_reads w)) (http_gets w) (ids_made w) (sends w) (recvs w)
          (wire w) (log w).

Definition tick_http (w : World) : World :=
  mkWorld (clock_reads w) (S (http_gets w)) (ids_made w) (sends w) (recvs w)
          (wire w) (log w).

Definition tick_ids (w : World) : World :=
  mkWorld (clock_reads w) (http_gets w) (S (ids_made w)) (sends w) (recvs w)
          (wire w) (log w).

Definition tick_sends (w : World) : World :=
  mkWorld (clock_reads w) (http_gets w) (ids_made w) (S (sends w)) (recvs w)
          (wire w) (log w).

Definition tick_recvs (w : World) : World :=
  mkWorld (clock_reads w) (http_gets w) (ids_made w) (sends w) (S (recvs w))
          (wire w) (log w).

Definition on_wire (e : Event) (w : World) : World :=
  mkWorld (clock_reads w) (http_gets w) (ids_made w) (sends w) (recvs w)
          (wire w ++ [e]) (log w).

Definition logged (r : LogRecord) (w : World) : World :=
  mkWorld (clock_reads w) (http_gets w) (ids_made w) (sends w) (recvs w)
          (wire w) (log w ++ [r]).

End WorldUpdates.

(** [datetime.now()] and [datetime.utcnow()]: one more reading of the
    clock. *)
Definition now : M DateTime :=
  fun env st =>
    (Ok (clock env (clock_reads (world st))),
     mkState (self st) (tick_clock (world st))).

(** [requests.get(fronius_url).json()] *)
Definition requests_get_json : M json :=
  fun env st =>
    (inverter env (http_gets (world st)),
     mkState (self st) (tick_http (world st))).

(** [str(self._unique_id_generator())] *)
Definition _unique_id_generator : M string :=
  fun env st =>
    (Ok (uuid4 env (ids_made (world st))),
     mkState (self st) (tick_ids (world st))).

Definition logging_info (fmt : string) (args : list json) : M unit :=
  modify_world (logged (LogInfo fmt args)).

Definition print (args : list json) : M unit :=
  modify_world (logged (Printed args)).

(** [await self._connection.send(message)]: the frame goes out, or the
    connection is gone and the call raises. *)
Definition connection_send (message : json) : M unit :=
  fun env st =>
    let w := world st in
    if conn_send env (sends w)
    then (Ok tt, mkState (self st) (on_wire (Sent message) (tick_sends w)))
    else (Raise ConnectionClosed, mkState (self st) (tick_sends w)).

(** [await self._connection.recv()] *)
Definition connection_recv : M Message :=
  fun env st =>
    let w := world st in
    match conn_recv env (recvs w) with
    | Ok m => (Ok m, mkState (self st) (on_wire (Received m) (tick_recvs w)))
    | Raise e => (Raise e, mkState (self st) (tick_recvs w))
    end.

(** [ocpp.charge_point.ChargePoint._send]: hands the text to the
    connection and returns; it reads nothing. *)
Definition _send (message : json) : M unit := connection_send message.

(* ================================================================== *)
(** ** The ocpp package: payload classes and codec helpers *)
(* ================================================================== *)

(** A dataclass instance: its class name and its fields in declaration
    order. *)
Record Payload : Type := mkPayload {
  class_name : string;
  fields : list (string * json)
}.

(** [dataclasses.asdict] *)
Definition asdict (p : Payload) : json := JObj (fields p).

Module call.

(** [ocpp.v16.call.ClearChargingProfilePayload()]: four optional
    fields, all left at [None]. *)
Definition ClearChargingProfilePayload : Payload :=
  mkPayload "ClearChargingProfilePayload"
    [("id", JNull); ("connector_id", JNull);
     ("charging_profile_purpose", JNull); ("stack_level", JNull)].

(** [ocpp.v16.call.SetChargingProfilePayload(connector_id=..,
    cs_charging_profiles=..)] *)
Definition SetChargingProfilePayload
    (connector_id : json) (cs_charging_profiles : json) : Payload :=
  mkPayload "SetChargingProfilePayload"
    [("connector_id", connector_id);
     ("cs_charging_profiles", cs_charging_profiles)].

End call.

Module call_result.

Definition BootNotificationPayload
    (current_time : string) (interval : Z) (status : string) : Payload :=
  mkPayload "BootNotificationPayload"
    [("current_time", JStr current_time);
     ("interval", JNum (inject_Z interval));
     ("status", JStr status)].

Definition HeartbeatPayload (current_time : string) : Payload :=
  mkPayload "HeartbeatPayload" [("current_time", JStr current_time)].

Definition MeterValuesPayload : Payload :=
  mkPayload "MeterValuesPayload" [].

Definition StatusNotificationPayload : Payload :=
  mkPayload "StatusNotificationPayload" [].

Definition AuthorizePayload (id_tag_info : json) : Payload :=
  mkPayload "AuthorizePayload" [("id_tag_info", id_tag_info)].

Definition StartTransactionPayload
    (transaction_id : Z) (id_tag_info : json) : Payload :=
  mkPayload "StartTransactionPayload"
    [("transaction_id", JNum (inject_Z transaction_id));
     ("id_tag_info", id_tag_info)].

End call_result.

(** [RegistrationStatus.accepted] *)
Definition RegistrationStatus_accepted : string := "Accepted".

(** Modelled from the spec: the key mapping of [snake_to_camel_case], a
    function of the ocpp package that is not part of this repository
    ("converts internal field names to the wire's camel-case
    convention"). *)
Definition camel_key (k : string) : string :=
  match split "_" k with
  | [] => k
  | first :: rest => first ++ String.concat EmptyString (map capitalize_first rest)
  end.

(** Modelled from the spec: [ocpp.charge_point.snake_to_camel_case],
    absent from this repository; every key of every nested dict is
    mapped by [camel_key]. *)
Fixpoint snake_to_camel_case (d : json) : json :=
  match d with
  | JObj kv =>
      JObj (map (fun kv => (camel_key (fst kv), snake_to_camel_case (snd kv))) kv)
  | JArr l => JArr (map snake_to_camel_case l)
  | _ => d
  end.

(** Modelled from the spec: the key mapping of [camel_to_snake_case]
    (wire names to internal names), absent from this repository. *)
Fixpoint snake_tail (s : string) : string :=
  match s with
  | EmptyString => EmptyString
  | String a rest =>
      if is_upper a then String "_" (String (lower a) (snake_tail rest))
      else String a (snake_tail rest)
  end.

Definition snake_key (k : string) : string :=
  match k with
  | EmptyString => EmptyString
  | String a rest => String (lower a) (snake_tail rest)
  end.

(** Modelled from the spec: [ocpp.charge_point.remove_nones], absent from
    this repository ("omits fields whose value is absent/null (never emits
    null-valued keys)"). *)
Fixpoint remove_nones (d : json) : json :=
  match d with
  | JObj kv =>
      JObj ((fix members (kv : list (string * json)) : list (string * json) :=
               match kv with
               | [] => []
               | (k, v) :: rest =>
                   if is_none v then members rest
                   else (k, remove_nones v) :: members rest
               end) kv)
  | JArr l =>
      JArr ((fix items (l : list json) : list json :=
               match l with
               | [] => []
               | v :: rest =>
                   if is_none v then items rest
                   else remove_nones v :: items rest
               end) l)
  | _ => d
  end.

(** [Call.to_json]: the four-element array form of a call. *)
Definition to_json (c : Call) : json :=
  JArr [JNum 2; JStr (unique_id c); JStr (action c); payload c].

(* ================================================================== *)
(** ** solar_api.py *)
(* ================================================================== *)

(** [d.get(k, default)]: defined on dicts only; on any other value the
    attribute lookup of [get] raises [AttributeError]. *)
Definition py_get (d : json) (k : string) (default : json) : Result json :=
  match d with
  | JObj kv =>
      Ok (match assoc k kv with Some v => v | None => default end)
  | _ => Raise AttributeError
  end.

Definition get_ (d : json) (k : string) (default : json) : M json :=
  of_result (py_get d k default).

(** [read_power()]: the pair [(current_power, current_power_unit)]. *)
Definition read_power : M (json * json) :=
  stats <- requests_get_json ;;
  body <- get_ stats "Body" (JObj []) ;;
  data <- get_ body "Data" (JObj []) ;;
  pac <- get_ data "PAC" (JObj []) ;;
  values <- get_ pac "Values" (JObj []) ;;
  current_power <- get_ values "1" (JNum 0) ;;
  body' <- get_ stats "Body" (JObj []) ;;
  data' <- get_ body' "Data" (JObj []) ;;
  pac' <- get_ data' "PAC" (JObj []) ;;
  current_power_unit <- get_ pac' "Unit" (JStr EmptyString) ;;
  (if py_eq_str current_power_unit "W"
   then print [current_power; current_power_unit]
   else print [JStr "Unknown unit"; current_power_unit]) ;;
  ret (current_power, current_power_unit).

(* ================================================================== *)
(** ** server.py: outbound calls *)
(* ================================================================== *)

(** [ChargePoint.send_payload] *)
Definition send_payload (p : Payload) : M unit :=
  let camel_case_payload := snake_to_camel_case (asdict p) in
  uid <- _unique_id_generator ;;
  let call :=
    mkCall uid (drop_last 7 (class_name p)) (remove_nones camel_case_payload) in
  env <- ask ;;
  (if validate_payload env call _ocpp_version then ret tt
   else raise ValidationError) ;;
  _send (to_json call).

(** [ChargePoint.clear_smart_charge_profile] *)
Definition clear_smart_charge_profile : M unit :=
  logging_info "Clearing smart charging profile" [] ;;
  let payload := call.ClearChargingProfilePayload in
  send_payload payload.

(** The dict literal built in [set_smart_charge_profile]. *)
Definition cs_charging_profiles_of
    (start_schedule : string) (max_charge : Q) (charge_unit : json) : json :=
  JObj [("chargingProfileId", JNum 2);
        ("stackLevel", JNum 2);
        ("chargingProfilePurpose", JStr "ChargePointMaxProfile");
        ("chargingProfileKind", JStr "Absolute");
        ("chargingSchedule",
         JObj [("startSchedule", JStr start_schedule);
               ("chargingRateUnit", charge_unit);
               ("chargingSchedulePeriod",
                JArr [JObj [("startPeriod", JNum 0);
                            ("limit", JNum max_charge)]]);
               ("minChargingRate", JNum (1 # 10))])].

(** [ChargePoint.set_smart_charge_profile] *)
Definition set_smart_charge_profile (max_charge : Q) (charge_unit : json)
  : M unit :=
  logging_info "Setting smart charging profile to %s %s"
               [JNum max_charge; charge_unit] ;;
  t <- now ;;
  let cs_charging_profiles :=
    cs_charging_profiles_of (isoformat t ++ "Z") max_charge charge_unit in
  let payload :=
    call.SetChargingProfilePayload (JNum 0) cs_charging_profiles in
  send_payload payload.

(* ================================================================== *)
(** ** server.py: the session loop *)
(* ================================================================== *)

Definition set_last_max_charge (q : Q) (cp : ChargePoint) : ChargePoint :=
  mkChargePoint (id cp) (_last_profile_sent cp) q.

Definition set_last_profile_sent (m : Z) (cp : ChargePoint) : ChargePoint :=
  mkChargePoint (id cp) m (_last_max_charge cp).

(** Lines 33-40 of [ChargePoint.start]: one evaluation of the solar
    reading.  [max_charge < 240] raises [TypeError] unless the reading is a
    number; a reading replaced by the floor is the integer 240. *)
Definition evaluate_reading : M unit :=
  '(max_charge, unit_power) <- read_power ;;
  match as_number max_charge with
  | None => raise TypeError
  | Some q =>
      let max_charge := if Qltb q 240 then 240%Q else q in
      st <- get ;;
      (if negb (Qeq_bool max_charge (_last_max_charge (self st))) then
         clear_smart_charge_profile ;;
         set_smart_charge_profile max_charge unit_power ;;
         modify_self (set_last_max_charge max_charge)
       else ret tt) ;;
      t <- now ;;
      modify_self (set_last_profile_sent (minute t))
  end.

(** Lines 32-40: the once-per-minute check around the evaluation. *)
Definition smart_charging_step : M unit :=
  st <- get ;;
  t <- now ;;
  if negb (Z.eqb (_last_profile_sent (self st)) (minute t))
  then evaluate_reading
  else ret tt.

(* ================================================================== *)
(** ** server.py: handlers of inbound calls *)
(* ================================================================== *)

(** Python's binding of a call [f(self, *args, **kwargs)] to a signature
    whose parameters after [self] are the required names [params]: a
    positional argument fills the next parameter (and a keyword of the same
    name is then a duplicate), a parameter left over is looked up among the
    keywords by its exact name, and one found in neither place is a missing
    argument.  Each failure is a [TypeError]. *)
Fixpoint bind_params (params : list string) (args : list json)
    (kwargs : list (string * json)) : Result (list (string * json)) :=
  match params with
  | [] => match args with [] => Ok [] | _ :: _ => Raise TypeError end
  | p :: ps =>
      match args with
      | a :: args' =>
          match assoc p kwargs with
          | Some _ => Raise TypeError
          | None =>
              match bind_params ps args' kwargs with
              | Ok b => Ok ((p, a) :: b)
              | Raise e => Raise e
              end
          end
      | [] =>
          match assoc p kwargs with
          | Some v =>
              match bind_params ps [] kwargs with
              | Ok b => Ok ((p, v) :: b)
              | Raise e => Raise e
              end
          | None => Raise TypeError
          end
      end
  end.

Definition mem (k : string) (l : list string) : bool :=
  existsb (String.eqb k) l.

(** The whole signature: [var_kw] tells whether it ends in [**_kwargs],
    which takes the keywords that name no parameter; without it such a
    keyword is a [TypeError]. *)
Definition bind_signature (params : list string) (var_kw : bool)
    (args : list json) (kwargs : list (string * json))
  : Result (list (string * json)) :=
  match bind_params params args kwargs with
  | Raise e => Raise e
  | Ok b =>
      if var_kw || forallb (fun kv => mem (fst kv) params) kwargs
      then Ok b else Raise TypeError
  end.

Definition Handler : Type := list json -> list (string * json) -> M Payload.

Definition accepted_tag : json := JObj [("status", JStr "Accepted")].

Definition on_boot_notification : Handler := fun args kwargs =>
  _ <- of_result (bind_signature
         ["_charge_point_vendor"; "_charge_point_model"] true args kwargs) ;;
  t <- now ;;
  ret (call_result.BootNotificationPayload
         (isoformat t) 10 RegistrationStatus_accepted).

Definition on_heartbeat : Handler := fun args kwargs =>
  _ <- of_result (bind_signature [] false args kwargs) ;;
  t <- now ;;
  ret (call_result.HeartbeatPayload (isoformat t)).

Definition on_meter_values : Handler := fun args kwargs =>
  _ <- of_result (bind_signature
         ["_connector_id"; "_meter_value"] true args kwargs) ;;
  ret call_result.MeterValuesPayload.

Definition on_status_notification : Handler := fun args kwargs =>
  _ <- of_result (bind_signature
         ["_connector_id"; "_status"] true args kwargs) ;;
  ret call_result.StatusNotificationPayload.

Definition on_authorize : Handler := fun args kwargs =>
  _ <- of_result (bind_signature ["_id_tag"] true args kwargs) ;;
  ret (call_result.AuthorizePayload accepted_tag).

Definition on_start_transaction : Handler := fun args kwargs =>
  _ <- of_result (bind_signature
         ["_connector_id"; "_id_tag"; "_meter_start"; "_timestamp"]
         true args kwargs) ;;
  ret (call_result.StartTransactionPayload 1 accepted_tag).

(** The handlers registered by the [@on(Action...)] decorators. *)
Definition route_map (action : string) : option Handler :=
  if String.eqb action "BootNotification" then Some on_boot_notification
  else if String.eqb action "Heartbeat" then Some on_heartbeat
  else if String.eqb action "MeterValues" then Some on_meter_values
  else if String.eqb action "StatusNotification" then Some on_status_notification
  else if String.eqb action "Authorize" then Some on_authorize
  else if String.eqb action "StartTransaction" then Some on_start_transaction
  else None.

(* ================================================================== *)
(** ** The ocpp package: codec and router *)
(* ================================================================== *)

Inductive Envelope : Type :=
| ECall (c : Call)
| ECallResult (uid : string) (payload : json)
| ECallError (uid : string) (error_code error_description : string)
             (error_details : json).

Inductive DecodeError : Type :=
| MalformedEnvelope
| UnknownMessageType.

(** Modelled from the spec: [camel_to_snake_case] of the ocpp package,
    absent from this repository; the inverse naming of
    [snake_to_camel_case], applied to the fields a handler is invoked
    with. *)
Fixpoint camel_to_snake_case (d : json) : json :=
  match d with
  | JObj kv =>
      JObj (map (fun kv => (snake_key (fst kv), camel_to_snake_case (snd kv))) kv)
  | JArr l => JArr (map camel_to_snake_case l)
  | _ => d
  end.

(** Modelled from the spec: the codec's [encode], absent from this
    repository (section 4.1: "serializes the tagged variant to the 3- or
    4-element JSON array form; converts internal field names to the wire's
    camel-case convention; omits fields whose value is absent/null"; the
    array forms are those of section 6). *)
Definition encode (e : Envelope) : json :=
  match e with
  | ECall c =>
      JArr [JNum 2; JStr (unique_id c); JStr (action c);
            remove_nones (snake_to_camel_case (payload c))]
  | ECallResult uid p =>
      JArr [JNum 3; JStr uid; remove_nones (snake_to_camel_case p)]
  | ECallError uid code description details =>
      JArr [JNum 4; JStr uid; JStr code; JStr description; details]
  end.

(** Modelled from the spec: the codec's [decode], absent from this
    repository (section 4.1: "parses the array form; fails with
    MalformedEnvelope if the array length/type-tag combination is invalid,
    or UnknownMessageType if the leading type id is not one of 2, 3,
    4"). *)
Definition decode (m : Message) : Envelope + DecodeError :=
  match m with
  | Text (JArr (JNum t :: rest)) =>
      if Qeq_bool t 2 then
        match rest with
        | [JStr uid; JStr act; p] => inl (ECall (mkCall uid act p))
        | _ => inr MalformedEnvelope
        end
      else if Qeq_bool t 3 then
        match rest with
        | [JStr uid; p] => inl (ECallResult uid p)
        | _ => inr MalformedEnvelope
        end
      else if Qeq_bool t 4 then
        match rest with
        | [JStr uid; JStr code; JStr description; details] =>
            inl (ECallError uid code description details)
        | _ => inr MalformedEnvelope
        end
      else inr UnknownMessageType
  | _ => inr MalformedEnvelope
  end.

Definition kwargs_of (p : json) : list (string * json) :=
  match camel_to_snake_case p with
  | JObj kv => kv
  | _ => []
  end.

Definition exn_name (e : Exn) : string :=
  match e with
  | KeyError => "KeyError"
  | TypeError => "TypeError"
  | AttributeError => "AttributeError"
  | RequestException => "RequestException"
  | ValidationError => "ValidationError"
  | ConnectionClosed => "ConnectionClosed"
  end.

(** Modelled from the spec: the router's [dispatch], absent from this
    repository (section 4.3: "looks up handler by call.action; if absent,
    returns a CallError with code NotImplemented; if present, invokes it
    with the call's payload fields and wraps a successful return into a
    CallResult envelope carrying call.unique_id; if the handler itself
    fails, returns a CallError with code InternalError and the failure
    message as error_description").  The payload fields are passed by
    name, under their internal names. *)
Definition dispatch (c : Call) : M Envelope :=
  match route_map (action c) with
  | None => ret (ECallError (unique_id c) "NotImplemented" EmptyString (JObj []))
  | Some handler =>
      fun env st =>
        match handler [] (kwargs_of (payload c)) env st with
        | (Ok p, st') => (Ok (ECallResult (unique_id c) (asdict p)), st')
        | (Raise e, st') =>
            (Ok (ECallError (unique_id c) "InternalError" (exn_name e)
                            (JObj [])), st')
        end
  end.

Definition message_repr (m : Message) : json :=
  match m with Text j => j | Garbage s => JStr s end.

Definition logging_error (fmt : string) (args : list json) : M unit :=
  modify_world (logged (LogError fmt args)).

(** Modelled from the spec: [route_message] of the ocpp package, absent
    from this repository (section 4.4, receive loop: "decodes it; if it is
    a Call, validates + dispatches and sends the result/error back; if it
    is a CallResult/CallError, resolves the pending slot matching its
    unique_id (if none exists, logs and discards - not fatal)"; section 7:
    a frame that does not decode is logged and discarded, a call that
    fails validation is answered with FormationViolation).  This program
    keeps no pending slots, so a result or error is logged and
    discarded. *)
Definition route_message (raw : Message) : M unit :=
  match decode raw with
  | inr _ => logging_error "discarded frame %s" [message_repr raw]
  | inl (ECall c) =>
      env <- ask ;;
      response <-
        (match route_map (action c) with
         | Some _ =>
             if validate_payload env c _ocpp_version then dispatch c
             else ret (ECallError (unique_id c) "FormationViolation" EmptyString
                                  (JObj []))
         | None => dispatch c
         end) ;;
      _send (encode response)
  | inl _ => logging_info "discarded response %s" [message_repr raw]
  end.

(* ================================================================== *)
(** ** server.py: [start] and [on_connect] *)
(* ================================================================== *)

(** One pass through the body of [while True] in [ChargePoint.start]
    (lines 32-43). *)
Definition start_iteration : M unit :=
  smart_charging_step ;;
  message <- connection_recv ;;
  st <- get ;;
  logging_info "%s: receive message %s"
               [JStr (id (self st)); message_repr message] ;;
  route_message message.

(** [ChargePoint.start]: the loop has no exit of its own, it ends only by
    an exception.  [start n] is its first [n] passes: [Raise e] when one of
    them raised, [Ok tt] when the loop is still running after them. *)
Fixpoint start (passes : nat) : M unit :=
  match passes with
  | O => ret tt
  | S n => start_iteration ;; start n
  end.

(** The websocket handed to [on_connect]: the attributes it reads. *)
Record WebSocket : Type := mkWebSocket {
  request_headers : list (string * string);
  subprotocol : option string;
  available_subprotocols : list string
}.

(** [ChargePoint(charge_point_id, websocket)]: the class attributes give
    the two bookkeeping fields their first values. *)
Definition new_ChargePoint (charge_point_id : string) : ChargePoint :=
  mkChargePoint charge_point_id (-1) 0.

Definition option_repr (o : option string) : json :=
  match o with Some s => JStr s | None => JNull end.

(** What [on_connect] leaves behind: the outcome of the coroutine, the
    session object if one was created, and the world. *)
Record Connection : Type := mkConnection {
  result : Result unit;
  session : option ChargePoint;
  after : World
}.

(** [on_connect(websocket, path)], with the session loop run for
    [passes] passes. *)
Definition on_connect (passes : nat) (websocket : WebSocket) (path : string)
    (env : Env) (w : World) : Connection :=
  match assoc "Sec-WebSocket-Protocol" (request_headers websocket) with
  | None =>
      let w := logged (LogError
        "Client hasn't requested any Subprotocol. Closing Connection" []) w in
      mkConnection (Ok tt) None (on_wire Closed w)
  | Some requested_protocols =>
      if truthy (subprotocol websocket) then
        let w := logged (LogInfo "Protocols Matched: %s"
                           [option_repr (subprotocol websocket)]) w in
        let charge_point_id := strip "/" path in
        let _cp := new_ChargePoint charge_point_id in
        let w := logged (LogInfo "Charge Point %s connected"
                           [JStr (id _cp)]) w in
        let r := start passes env (mkState _cp w) in
        mkConnection (outcome r) (Some (self (final r))) (world (final r))
      else
        let w := logged (LogWarning
          "Protocols Mismatched | Expected Subprotocols: %s, but client supports  %s | Closing connection"
          [JArr (map JStr (available_subprotocols websocket));
           JStr requested_protocols]) w in
        mkConnection (Ok tt) None (on_wire Closed w)
  end.

(* ================================================================== *)
(** ** Observing a run *)
(* ================================================================== *)

(** An outbound call as seen on the wire: which of the two profile calls
    it is, and for a set call the limit of its first schedule period. *)
Inductive Outbound : Type :=
| ClearProfile
| SetProfile (limit : option Q)
| OtherCall (action : string).

Definition field (k : string) (d : json) : option json :=
  match d with
  | JObj kv => assoc k kv
  | _ => None
  end.

Definition obind {A B} (o : option A) (k : A -> option B) : option B :=
  match o with Some a => k a | None => None end.

Definition schedule_of (payload : json) : option json :=
  obind (field "csChargingProfiles" payload) (field "chargingSchedule").

Definition limit_of (payload : json) : option Q :=
  obind (schedule_of payload) (fun schedule =>
  obind (field "chargingSchedulePeriod" schedule) (fun periods =>
    match periods with
    | JArr (period :: _) =>
        match field "limit" period with
        | Some (JNum q) => Some q
        | _ => None
        end
    | _ => None
    end)).

Definition rate_unit_of (payload : json) : option json :=
  obind (schedule_of payload) (field "chargingRateUnit").

(** The call carried by a sent frame, if the frame is a call (type 2). *)
Definition call_of_frame (frame : json) : option Call :=
  match frame with
  | JArr [JNum t; JStr uid; JStr act; p] =>
      if Qeq_bool t 2 then Some (mkCall uid act p) else None
  | _ => None
  end.

Definition outbound_of_call (c : Call) : Outbound :=
  if String.eqb (action c) "ClearChargingProfile" then ClearProfile
  else if String.eqb (action c) "SetChargingProfile"
       then SetProfile (limit_of (payload c))
       else OtherCall (action c).

Definition outbound_of (e : Event) : list Outbound :=
  match e with
  | Sent frame =>
      match call_of_frame frame with
      | Some c => [outbound_of_call c]
      | None => []
      end
  | _ => []
  end.

(** All calls the server issued, in order. *)
Definition outbound_calls (es : list Event) : list Outbound :=
  flat_map outbound_of es.

Definition is_received (e : Event) : bool :=
  match e with Received _ => true | _ => false end.

(** The unique id a received frame answers, when it is a result (type 3)
    or an error (type 4). *)
Definition response_to (e : Event) : option string :=
  match e with
  | Received m =>
      match decode m with
      | inl (ECallResult uid _) => Some uid
      | inl (ECallError uid _ _ _) => Some uid
      | _ => None
      end
  | _ => None
  end.

(** The ordering the protocol description asks for, as a check of a
    connection trace: [pending] is the id of a clear call that has been
    sent and not yet answered; a set call sent while a clear is pending
    breaks the ordering. *)
Fixpoint resolved_before_set (pending : option string) (es : list Event)
  : bool :=
  match es with
  | [] => true
  | e :: rest =>
      match e with
      | Sent frame =>
          match call_of_frame frame with
          | Some c =>
              if String.eqb (action c) "ClearChargingProfile"
              then resolved_before_set (Some (unique_id c)) rest
              else if String.eqb (action c) "SetChargingProfile"
                   then match pending with
                        | Some _ => false
                        | None => resolved_before_set pending rest
                        end
                   else resolved_before_set pending rest
          | None => resolved_before_set pending rest
          end
      | _ =>
          match pending, response_to e with
          | Some uid, Some uid' =>
              if String.eqb uid uid' then resolved_before_set None rest
              else resolved_before_set pending rest
          | _, _ => resolved_before_set pending rest
          end
      end
  end.

Definition clear_resolved_before_set (es : list Event) : bool :=
  resolved_before_set None es.

(** The floor of 240 applied to a numeric reading. *)
Definition clamp (q : Q) : Q := if Qltb q 240 then 240%Q else q.

(** The frames of the two profile calls, as [send_payload] builds them. *)
Definition wire_payload (p : Payload) : json :=
  remove_nones (snake_to_camel_case (asdict p)).

Definition clear_call (uid : string) : Call :=
  mkCall uid "ClearChargingProfile" (wire_payload call.ClearChargingProfilePayload).

Definition set_call (uid : string) (t : DateTime) (max_charge : Q)
    (charge_unit : json) : Call :=
  mkCall uid "SetChargingProfile"
    (wire_payload
       (call.SetChargingProfilePayload (JNum 0)
          (cs_charging_profiles_of (isoformat t ++ "Z") max_charge charge_unit))).

(** The reading [read_power] extracts from a response body, as a pure
    function of the body. *)
Definition rbind {A B} (r : Result A) (k : A -> Result B) : Result B :=
  match r with Ok a => k a | Raise e => Raise e end.

Definition pac_of (stats : json) : Result json :=
  rbind (py_get stats "Body" (JObj [])) (fun body =>
  rbind (py_get body "Data" (JObj [])) (fun data =>
  py_get data "PAC" (JObj []))).

Definition reading_of (stats : json) : Result (json * json) :=
  rbind (pac_of stats) (fun pac =>
  rbind (py_get pac "Values" (JObj [])) (fun values =>
  rbind (py_get values "1" (JNum 0)) (fun current_power =>
  rbind (py_get pac "Unit" (JStr EmptyString)) (fun current_power_unit =>
  Ok (current_power, current_power_unit))))).

Definition printed_line (power unit_ : json) : LogRecord :=
  if py_eq_str unit_ "W" then Printed [power; unit_]
  else Printed [JStr "Unknown unit"; unit_].

(** An environment in which no outbound call is refused: the validator
    accepts every call and the connection takes every frame. *)
Definition Cooperative (env : Env) : Prop :=
  (forall c v, validate_payload env c v = true) /\
  (forall n, conn_send env n = true).

(** The numeric value of the [k]-th inverter response ([None] when the
    request fails, the body has the wrong shape or the value is no
    number). *)
Definition reading_value (env : Env) (k : nat) : option Q :=
  match inverter env k with
  | Ok stats =>
      match reading_of stats with
      | Ok (v, _) => as_number v
      | Raise _ => None
      end
  | Raise _ => None
  end.

(* ================================================================== *)
(** ** The policy as the specification words it *)
(* ================================================================== *)

Module Policy.

Inductive Decision : Type :=
| NoChange
| NewCap (cap : Q).

(** "clamps the reading's value to a floor of 240; if the clamped value
    equals last_cap, returns NoChange; otherwise returns the new cap" *)
Definition decide (reading : Q) (last_cap : Q) : Decision :=
  let clamped := if Qle_bool 240 reading then reading else 240%Q in
  if Qeq_bool clamped last_cap then NoChange else NewCap clamped.

(** The calls a sequence of evaluations issues, starting from
    [last_cap]: a (clear, set) pair per decision that is not NoChange. *)
Fixpoint calls (last_cap : Q) (readings : list Q) : list Outbound :=
  match readings with
  | [] => []
  | r :: rest =>
      match decide r last_cap with
      | NoChange => calls last_cap rest
      | NewCap c => ClearProfile :: SetProfile (Some c) :: calls c rest
      end
  end.

(** The cap recorded after those evaluations. *)
Fixpoint cap_after (last_cap : Q) (readings : list Q) : Q :=
  match readings with
  | [] => last_cap
  | r :: rest =>
      match decide r last_cap with
      | NoChange => cap_after last_cap rest
      | NewCap c => cap_after c rest
      end
  end.

End Policy.

(* ================================================================== *)
(** ** Auxiliary notions used in the statements *)
(* ================================================================== *)

Definition on_world (f : World -> World) (st : State) : State :=
  mkState (self st) (f (world st)).

(** The state right after a successful [read_power]. *)
Definition after_read (v u : json) (st : State) : State :=
  on_world (fun w => logged (printed_line v u) (tick_http w)) st.

(** The end of an evaluation: the minute is read again and recorded. *)
Definition finish (env : Env) (st : State) : Result unit * State :=
  (Ok tt,
   mkState (set_last_profile_sent
              (minute (clock env (clock_reads (world st)))) (self st))
           (tick_clock (world st))).

Definition record_cap (q : Q) (st : State) : State :=
  mkState (set_last_max_charge q (self st)) (world st).

(** The part of a pass that follows the smart-charging step. *)
Definition receive_and_route : M unit :=
  message <- connection_recv ;;
  st <- get ;;
  logging_info "%s: receive message %s"
               [JStr (id (self st)); message_repr message] ;;
  route_message message.

(** [st'] differs from [st] at most by clock readings, log lines and
    frames that are no outbound calls. *)
Definition same_session (st st' : State) : Prop :=
  self st' = self st /\
  http_gets (world st') = http_gets (world st) /\
  outbound_calls (wire (world st')) = outbound_calls (wire (world st)).

Definition quiet {A} (m : M A) : Prop :=
  forall env st, same_session st (final (m env st)).

Definition reading_or_zero (env : Env) (k : nat) : Q :=
  match reading_value env k with Some q => q | None => 0%Q end.

(** The readings consumed by evaluations number [k], [k+1], ... *)
Definition readings (env : Env) (k n : nat) : list Q :=
  map (reading_or_zero env) (seq k n).





(** No dict anywhere inside [d] has a key whose value is [None]. *)
Fixpoint no_null_keys (d : json) : bool :=
  match d with
  | JObj kv =>
      (fix members (kv : list (string * json)) : bool :=
         match kv with
         | [] => true
         | (_, v) :: rest =>
             negb (is_none v) && no_null_keys v && members rest
         end) kv
  | JArr l =>
      (fix items (l : list json) : bool :=
         match l with
         | [] => true
         | v :: rest => no_null_keys v && items rest
         end) l
  | _ => true
  end.

Section JsonInduction.

Variable P : json -> Prop.
Hypothesis HNull : P JNull.
Hypothesis HBool : forall b, P (JBool b).
Hypothesis HNum : forall q, P (JNum q).
Hypothesis HStr : forall s, P (JStr s).
Hypothesis HArr : forall l, Forall P l -> P (JArr l).
Hypothesis HObj : forall kv, Forall (fun m => P (snd m)) kv -> P (JObj kv).

Fixpoint json_induction (d : json) : P d :=
  match d with
  | JNull => HNull
  | JBool b => HBool b
  | JNum q => HNum q
  | JStr s => HStr s
  | JArr l =>
      HArr l ((fix items (l : list json) : Forall P l :=
                 match l with
                 | [] => Forall_nil P
                 | v :: rest => Forall_cons v (json_induction v) (items rest)
                 end) l)
  | JObj kv =>
      HObj kv ((fix members (kv : list (string * json))
                  : Forall (fun m => P (snd m)) kv :=
                  match kv with
                  | [] => Forall_nil _
                  | m :: rest =>
                      Forall_cons m (json_induction (snd m)) (members rest)
                  end) kv)
  end.

End JsonInduction.

Fixpoint slashes (n : nat) : string :=
  match n with
  | O => EmptyString
  | S m => String "/" (slashes m)
  end.

Definition starts_with (c : ascii) (s : string) : bool :=
  match s with
  | String a _ => Ascii.eqb a c
  | EmptyString => false
  end.

Fixpoint ends_with (c : ascii) (s : string) : bool :=
  match s with
  | EmptyString => false
  | String a EmptyString => Ascii.eqb a c
  | String _ rest => ends_with c rest
  end.

(** Modelled from the spec: the subprotocol negotiation of the websockets
    library, which is not part of this repository (section 4.6:
    "negotiation between client-requested and server-supported (ocpp1.6)
    subprotocols"): the first requested subprotocol the server supports,
    if any. *)
Definition negotiate (requested supported : list string) : option string :=
  find (fun p => mem p supported) requested.

(** The websocket [on_connect] is handed after an opening handshake in
    which the client offered the subprotocols [offered] ([None]: the
    request carried no [Sec-WebSocket-Protocol] header); the server is
    started with [subprotocols=['ocpp1.6']]. *)
Definition handshake (offered : option (list string)) : WebSocket :=
  match offered with
  | None => mkWebSocket [] None ["ocpp1.6"]
  | Some l =>
      mkWebSocket [("Sec-WebSocket-Protocol", String.concat ", " l)]
                  (negotiate l ["ocpp1.6"]) ["ocpp1.6"]
  end.

(** The outcome "connection closed, no session". *)
Definition refused (w : World) (c : Connection) : Prop :=
  session c = None /\ result c = Ok tt /\
  wire (after c) = (wire w ++ [Closed])%list /\
  outbound_calls (wire (after c)) = outbound_calls (wire w).

(* ================================================================== *)
(** ** Concrete scenarios *)
(* ================================================================== *)

Module Scenario.

(** An inverter response with power [v] and unit [u]. *)
Definition fronius (v u : json) : json :=
  JObj [("Body",
         JObj [("Data",
                JObj [("PAC",
                       JObj [("Unit", u);
                             ("Values", JObj [("1", v)])])])])].

(** A clock that has advanced by one minute at every reading. *)
Definition advancing_clock (n : nat) : DateTime :=
  mkDateTime (Z.of_nat n mod 60) "2023-06-01T12:00:00".

Definition uid (n : nat) : string :=
  "call-" ++ String (ascii_of_nat (48 + n mod 10)) EmptyString.

Definition heartbeat : Message :=
  Text (JArr [JNum 2; JStr "hb"; JStr "Heartbeat"; JObj []]).

(** The charge point's answer to the server's first call. *)
Definition answer_to_first_call : Message :=
  Text (JArr [JNum 3; JStr (uid 0); JObj []]).

Definition inbox (n : nat) : Result Message :=
  match n with
  | O => Ok answer_to_first_call
  | _ => Ok heartbeat
  end.

(** An environment that accepts every call, with the given inverter
    responses. *)
Definition permissive (responses : nat -> Result json) : Env :=
  mkEnv advancing_clock responses uid (fun _ _ => true) (fun _ => true)
        inbox.

(** The same with a connection that takes no frame any more. *)
Definition disconnected (responses : nat -> Result json) : Env :=
  mkEnv advancing_clock responses uid (fun _ _ => true) (fun _ => false)
        inbox.

Definition steady (v u : json) : nat -> Result json :=
  fun _ => Ok (fronius v u).

Definition hysteresis_readings : nat -> Result json :=
  fun n => Ok (fronius (JNum (nth n [300; 300; 300] 250))%Q (JStr "W")).

Definition quiet_world : World := mkWorld 0 0 0 0 0 [] [].

Definition fresh : State := mkState (new_ChargePoint "CP_1") quiet_world.

Definition start_transaction_call : Call :=
  mkCall "tx-1" "StartTransaction"
    (JObj [("connectorId", JNum 1); ("idTag", JStr "ABC123");
           ("meterStart", JNum 0);
           ("timestamp", JStr "2023-06-01T12:00:00Z")]).



(** The inverter reports 300 W at every request. *)
Definition env_watts : Env := permissive (steady (JNum 300) (JStr "W")).

(** The inverter reports 300 with the unit "A". *)
Definition env_amps : Env := permissive (steady (JNum 300) (JStr "A")).

(** The inverter reports 100 W. *)
Definition env_low : Env := permissive (steady (JNum 100) (JStr "W")).

(** 300 W, and a connection that is gone. *)
Definition env_offline : Env :=
  disconnected (steady (JNum 300) (JStr "W")).

Definition env_hysteresis : Env := permissive hysteresis_readings.



End Scenario.

(* ================================================================== *)
(** ** Running the primitives *)
(* ================================================================== *)

Local Open Scope list_scope.


Lemma Qltb_lt (a b : Q) : Qltb a b = true <-> (a < b)%Q.
Proof.
  unfold Qltb. rewrite Qlt_alt.
  destruct (a ?= b)%Q; split; congruence.
Qed.

Lemma Qltb_ge (a b : Q) : Qltb a b = false <-> (b <= a)%Q.
Proof.
  split; intro H.
  - apply Qnot_lt_le. intro L. apply Qltb_lt in L. congruence.
  - destruct (Qltb a b) eqn:E; [|reflexivity].
    apply Qltb_lt in E. exfalso. apply (Qlt_not_le _ _ E H).
Qed.

Lemma clamp_floor (q : Q) : (240 <= clamp q)%Q.
Proof.
  unfold clamp. destruct (Qltb q 240) eqn:E.
  - apply Qle_refl.
  - now apply Qltb_ge.
Qed.

Lemma clamp_decide (q last : Q) :
  Policy.decide q last =
  if Qeq_bool (clamp q) last then Policy.NoChange else Policy.NewCap (clamp q).
Proof.
  unfold Policy.decide, clamp.
  destruct (Qltb q 240) eqn:E; destruct (Qle_bool 240 q) eqn:F; try reflexivity.
  - apply Qltb_lt in E. apply Qle_bool_iff in F.
    exfalso. apply (Qlt_not_le _ _ E F).
  - apply Qltb_ge in E. apply Qle_bool_iff in E. congruence.
Qed.

Lemma send_payload_run (p : Payload) (env : Env) (st : State) :
  send_payload p env st =
  let w := world st in
  let c := mkCall (uuid4 env (ids_made w)) (drop_last 7 (class_name p))
                  (wire_payload p) in
  if validate_payload env c _ocpp_version then
    if conn_send env (sends w)
    then (Ok tt, on_world (fun w => on_wire (Sent (to_json c)) (tick_sends (tick_ids w))) st)
    else (Raise ConnectionClosed, on_world (fun w => tick_sends (tick_ids w)) st)
  else (Raise ValidationError, on_world tick_ids st).
Proof.
  unfold send_payload, bind, _unique_id_generator, ask, _send, connection_send,
    wire_payload, on_world.
  cbn [world self ids_made].
  destruct (validate_payload env _ _ocpp_version); cbn.
  - destruct (conn_send env (sends (world st))); reflexivity.
  - reflexivity.
Qed.

Lemma read_power_run (env : Env) (st : State) :
  read_power env st =
  match inverter env (http_gets (world st)) with
  | Raise e => (Raise e, on_world tick_http st)
  | Ok stats =>
      match reading_of stats with
      | Raise e => (Raise e, on_world tick_http st)
      | Ok (v, u) =>
          (Ok (v, u),
           on_world (fun w => logged (printed_line v u) (tick_http w)) st)
      end
  end.
Proof.
  unfold read_power, bind, requests_get_json, on_world. cbn [fst snd world self].
  destruct (inverter env (http_gets (world st))) as [stats|e]; [|reflexivity].
  unfold reading_of, pac_of, get_, rbind.
  destruct (py_get stats "Body" (JObj [])) as [body|e]; [|reflexivity].
  cbn [of_result ret].
  destruct (py_get body "Data" (JObj [])) as [data|e]; [|reflexivity].
  cbn [of_result ret].
  destruct (py_get data "PAC" (JObj [])) as [pac|e]; [|reflexivity].
  cbn [of_result ret].
  destruct (py_get pac "Values" (JObj [])) as [values|e]; [|reflexivity].
  cbn [of_result ret].
  destruct (py_get values "1" (JNum 0)) as [power|e]; [|reflexivity].
  cbn [of_result ret].
  destruct (py_get pac "Unit" (JStr EmptyString)) as [u|e]; [|reflexivity].
  cbn [of_result ret].
  unfold printed_line, print, modify_world.
  destruct (py_eq_str u "W"); reflexivity.
Qed.

Lemma clear_run (env : Env) (st : State) :
  clear_smart_charge_profile env st =
  send_payload call.ClearChargingProfilePayload env
    (on_world (logged (LogInfo "Clearing smart charging profile" [])) st).
Proof. reflexivity. Qed.

Lemma set_run (max_charge : Q) (charge_unit : json) (env : Env) (st : State) :
  set_smart_charge_profile max_charge charge_unit env st =
  send_payload
    (call.SetChargingProfilePayload (JNum 0)
       (cs_charging_profiles_of
          (isoformat (clock env (clock_reads (world st))) ++ "Z")%string
          max_charge charge_unit))
    env
    (on_world (fun w => tick_clock
                 (logged (LogInfo "Setting smart charging profile to %s %s"
                            [JNum max_charge; charge_unit]) w)) st).
Proof. reflexivity. Qed.


Lemma evaluate_reading_run (env : Env) (st : State) :
  evaluate_reading env st =
  match read_power env st with
  | (Raise e, st1) => (Raise e, st1)
  | (Ok (v, u), st1) =>
      match as_number v with
      | None => (Raise TypeError, st1)
      | Some q =>
          if Qeq_bool (clamp q) (_last_max_charge (self st1)) then finish env st1
          else
            match clear_smart_charge_profile env st1 with
            | (Raise e, st2) => (Raise e, st2)
            | (Ok _, st2) =>
                match set_smart_charge_profile (clamp q) u env st2 with
                | (Raise e, st3) => (Raise e, st3)
                | (Ok _, st3) => finish env (record_cap (clamp q) st3)
                end
            end
      end
  end.
Proof.
  unfold evaluate_reading, bind at 1.
  destruct (read_power env st) as [[[v u]|e] st1]; [|reflexivity].
  destruct (as_number v) as [q|]; [|reflexivity].
  fold (clamp q).
  unfold bind at 1. unfold get at 1.
  destruct (Qeq_bool (clamp q) (_last_max_charge (self st1))); cbn [negb].
  - reflexivity.
  - unfold bind.
    destruct (clear_smart_charge_profile env st1) as [[[]|e] st2]; [|reflexivity].
    destruct (set_smart_charge_profile (clamp q) u env st2) as [[[]|e] st3];
      reflexivity.
Qed.

Lemma smart_charging_step_run (env : Env) (st : State) :
  smart_charging_step env st =
  if Z.eqb (_last_profile_sent (self st))
           (minute (clock env (clock_reads (world st))))
  then (Ok tt, on_world tick_clock st)
  else evaluate_reading env (on_world tick_clock st).
Proof.
  unfold smart_charging_step, bind, get, now, on_world.
  destruct (Z.eqb _ _); reflexivity.
Qed.

(** What one clear call does, whatever the environment. *)
Lemma clear_cases (env : Env) (st : State) :
  let r := clear_smart_charge_profile env st in
  let uid := uuid4 env (ids_made (world st)) in
  self (final r) = self st /\
  recvs (world (final r)) = recvs (world st) /\
  http_gets (world (final r)) = http_gets (world st) /\
  clock_reads (world (final r)) = clock_reads (world st) /\
  ids_made (world (final r)) = S (ids_made (world st)) /\
  ((outcome r = Ok tt /\
    validate_payload env (clear_call uid) _ocpp_version = true /\
    conn_send env (sends (world st)) = true /\
    sends (world (final r)) = S (sends (world st)) /\
    wire (world (final r)) = wire (world st) ++ [Sent (to_json (clear_call uid))])
   \/
   (exists e, outcome r = Raise e /\
      (validate_payload env (clear_call uid) _ocpp_version = false \/
       conn_send env (sends (world st)) = false) /\
      wire (world (final r)) = wire (world st))).
Proof.
  cbv zeta. rewrite clear_run, send_payload_run. cbv zeta.
  change (mkCall _ (drop_last 7 (class_name call.ClearChargingProfilePayload)) _)
    with (clear_call (uuid4 env (ids_made (world st)))).
  destruct (validate_payload env _ _ocpp_version) eqn:V;
    [destruct (conn_send env _) eqn:S1; cbn in S1 |- *; rewrite ?S1|];
    repeat split;
    first [ reflexivity
          | left; repeat split; reflexivity
          | right; eexists; repeat split; eauto ].
Qed.

(** What one set call does, whatever the environment. *)
Lemma set_cases (q : Q) (u : json) (env : Env) (st : State) :
  let r := set_smart_charge_profile q u env st in
  let uid := uuid4 env (ids_made (world st)) in
  let t := clock env (clock_reads (world st)) in
  self (final r) = self st /\
  recvs (world (final r)) = recvs (world st) /\
  http_gets (world (final r)) = http_gets (world st) /\
  clock_reads (world (final r)) = S (clock_reads (world st)) /\
  ids_made (world (final r)) = S (ids_made (world st)) /\
  ((outcome r = Ok tt /\
    validate_payload env (set_call uid t q u) _ocpp_version = true /\
    conn_send env (sends (world st)) = true /\
    sends (world (final r)) = S (sends (world st)) /\
    wire (world (final r)) = wire (world st) ++ [Sent (to_json (set_call uid t q u))])
   \/
   (exists e, outcome r = Raise e /\
      (validate_payload env (set_call uid t q u) _ocpp_version = false \/
       conn_send env (sends (world st)) = false) /\
      wire (world (final r)) = wire (world st))).
Proof.
  cbv zeta. rewrite set_run, send_payload_run. cbv zeta.
  change (mkCall _ (drop_last 7 (class_name (call.SetChargingProfilePayload _ _))) _)
    with (set_call (uuid4 env (ids_made (world st)))
                   (clock env (clock_reads (world st))) q u).
  destruct (validate_payload env _ _ocpp_version) eqn:V;
    [destruct (conn_send env _) eqn:S1; cbn in S1 |- *; rewrite ?S1|];
    repeat split;
    first [ reflexivity
          | left; repeat split; reflexivity
          | right; eexists; repeat split; eauto ].
Qed.


Lemma read_power_ok (env : Env) (st : State) (stats v u : json) :
  inverter env (http_gets (world st)) = Ok stats ->
  reading_of stats = Ok (v, u) ->
  read_power env st = (Ok (v, u), after_read v u st).
Proof.
  intros Hi Hr. rewrite read_power_run, Hi, Hr. reflexivity.
Qed.

(** An evaluation whose clamped reading equals the recorded cap sends
    nothing and leaves the cap alone. *)
Lemma evaluate_nochange (env : Env) (st : State) (stats v u : json) (q : Q) :
  inverter env (http_gets (world st)) = Ok stats ->
  reading_of stats = Ok (v, u) ->
  as_number v = Some q ->
  Qeq_bool (clamp q) (_last_max_charge (self st)) = true ->
  evaluate_reading env st = finish env (after_read v u st).
Proof.
  intros Hi Hr Hn He.
  rewrite evaluate_reading_run, (read_power_ok _ _ _ _ _ Hi Hr), Hn.
  cbn [after_read on_world self]. rewrite He. reflexivity.
Qed.

(** An evaluation whose clamped reading differs from the recorded cap, in
    an environment that takes both calls. *)
Lemma evaluate_change (env : Env) (st : State) (stats v u : json) (q : Q) :
  let w := world st in
  let uid1 := uuid4 env (ids_made w) in
  let uid2 := uuid4 env (S (ids_made w)) in
  let t := clock env (clock_reads w) in
  inverter env (http_gets w) = Ok stats ->
  reading_of stats = Ok (v, u) ->
  as_number v = Some q ->
  Qeq_bool (clamp q) (_last_max_charge (self st)) = false ->
  validate_payload env (clear_call uid1) _ocpp_version = true ->
  conn_send env (sends w) = true ->
  validate_payload env (set_call uid2 t (clamp q) u) _ocpp_version = true ->
  conn_send env (S (sends w)) = true ->
  let r := evaluate_reading env st in
  outcome r = Ok tt /\
  self (final r) =
    mkChargePoint (id (self st)) (minute (clock env (S (clock_reads w))))
                  (clamp q) /\
  wire (world (final r)) =
    wire w ++ [Sent (to_json (clear_call uid1));
               Sent (to_json (set_call uid2 t (clamp q) u))] /\
  http_gets (world (final r)) = S (http_gets w) /\
  recvs (world (final r)) = recvs w.
Proof.
  intros w uid1 uid2 t Hi Hr Hn He Hv1 Hs1 Hv2 Hs2 r.
  subst r w uid1 uid2 t. rewrite evaluate_reading_run, (read_power_ok _ _ _ _ _ Hi Hr), Hn.
  cbn [after_read on_world self]. rewrite He.
  rewrite clear_run, send_payload_run. cbv zeta.
  change (mkCall _ (drop_last 7 (class_name call.ClearChargingProfilePayload)) _)
    with (clear_call (uuid4 env (ids_made (world st)))).
  rewrite Hv1. cbn [after_read on_world world self sends logged tick_http].
  rewrite Hs1.
  rewrite set_run, send_payload_run. cbv zeta.
  cbn [after_read on_world world self sends logged tick_http tick_sends
       tick_ids tick_clock on_wire ids_made clock_reads].
  change (mkCall _ (drop_last 7 (class_name (call.SetChargingProfilePayload _ _))) _)
    with (set_call (uuid4 env (S (ids_made (world st))))
                   (clock env (clock_reads (world st))) (clamp q) u).
  rewrite Hv2, Hs2.
  cbn. rewrite <- app_assoc. repeat split; reflexivity.
Qed.

(** Every way an evaluation can go.  It reads nothing from the connection
    and never touches the session id; it sends nothing, or the clear call
    alone and then raises, or the clear call directly followed by the set
    call. *)
Lemma evaluate_reading_cases (env : Env) (st : State) :
  let r := evaluate_reading env st in
  let w := world st in
  let w' := world (final r) in
  id (self (final r)) = id (self st) /\
  recvs w' = recvs w /\
  ((outcome r = Ok tt /\ wire w' = wire w /\
    _last_max_charge (self (final r)) = _last_max_charge (self st))
   \/
   (outcome r = Ok tt /\
    exists uid1 uid2 t q u,
      wire w' = wire w ++ [Sent (to_json (clear_call uid1));
                           Sent (to_json (set_call uid2 t q u))] /\
      _last_max_charge (self (final r)) = q)
   \/
   (exists e, outcome r = Raise e /\ self (final r) = self st /\
      (wire w' = wire w \/
       exists uid, wire w' = wire w ++ [Sent (to_json (clear_call uid))]))).
Proof.
  cbv zeta. rewrite evaluate_reading_run, read_power_run.
  destruct (inverter env (http_gets (world st))) as [stats|e].
  2:{ cbn. repeat split. right. right. exists e. auto. }
  destruct (reading_of stats) as [[v u]|e].
  2:{ cbn. repeat split. right. right. exists e. auto. }
  destruct (as_number v) as [q|].
  2:{ cbn. repeat split. right. right. exists TypeError. auto. }
  fold (after_read v u st).
  destruct (Qeq_bool (clamp q) (_last_max_charge (self (after_read v u st)))).
  { cbn. repeat split. left. auto. }
  pose proof (clear_cases env (after_read v u st)) as C. cbv zeta in C.
  destruct (clear_smart_charge_profile env (after_read v u st))
    as [[[]|e1] st2]; cbn [final outcome fst snd] in C.
  2:{ destruct C as (Cs & Cr & _ & _ & _ & [(X & _)|(e & _ & _ & Cw)]);
        [discriminate|].
      cbn [final outcome fst snd]. rewrite Cs, Cr, Cw.
      repeat split. right. right. exists e1. auto. }
  destruct C as (Cs & Cr & _ & _ & _ & [(_ & _ & _ & _ & Cw)|(e & X & _)]);
    [|discriminate].
  pose proof (set_cases (clamp q) u env st2) as D. cbv zeta in D.
  destruct (set_smart_charge_profile (clamp q) u env st2)
    as [[[]|e2] st3]; cbn [final outcome fst snd] in D.
  - destruct D as (Ds & Dr & _ & _ & _ & [(_ & _ & _ & _ & Dw)|(e & X & _)]);
      [|discriminate].
    cbn [final outcome fst snd finish record_cap world self id
         set_last_profile_sent set_last_max_charge _last_max_charge
         tick_clock recvs wire].
    rewrite Ds, Dr, Dw, Cs, Cr, Cw, <- app_assoc.
    repeat split. right. left. split; [reflexivity|].
    do 5 eexists. split; reflexivity.
  - destruct D as (Ds & Dr & _ & _ & _ & [(X & _)|(e & _ & _ & Dw)]);
      [discriminate|].
    cbn [final outcome fst snd]. rewrite Ds, Dr, Dw, Cs, Cr, Cw.
    repeat split. right. right. exists e2. repeat split. right. eauto.
Qed.

(* ================================================================== *)
(** ** Steps that leave the session and its calls alone *)
(* ================================================================== *)


Lemma same_session_refl (st : State) : same_session st st.
Proof. repeat split. Qed.

Lemma same_session_trans (a b c : State) :
  same_session a b -> same_session b c -> same_session a c.
Proof.
  intros (H1 & H2 & H3) (K1 & K2 & K3).
  repeat split; congruence.
Qed.

Lemma outbound_calls_snoc (es : list Event) (e : Event) :
  outbound_calls (es ++ [e]) = outbound_calls es ++ outbound_of e.
Proof.
  unfold outbound_calls. rewrite flat_map_app. cbn. now rewrite app_nil_r.
Qed.

Lemma quiet_ret {A} (a : A) : quiet (ret a).
Proof. intros env st. apply same_session_refl. Qed.

Lemma quiet_raise {A} (e : Exn) : quiet (@raise A e).
Proof. intros env st. apply same_session_refl. Qed.

Lemma quiet_bind {A B} (m : M A) (k : A -> M B) :
  quiet m -> (forall a, quiet (k a)) -> quiet (bind m k).
Proof.
  intros Hm Hk env st. unfold bind.
  specialize (Hm env st).
  destruct (m env st) as [[a|e] st1]; cbn [final snd] in *.
  - eapply same_session_trans; [exact Hm|]. apply Hk.
  - exact Hm.
Qed.

Lemma quiet_of_result {A} (r : Result A) : quiet (of_result r).
Proof. destruct r; [apply quiet_ret|apply quiet_raise]. Qed.

Lemma quiet_now : quiet now.
Proof. intros env st. repeat split. Qed.

Lemma quiet_get : quiet get.
Proof. intros env st. repeat split. Qed.

Lemma quiet_ask : quiet ask.
Proof. intros env st. repeat split. Qed.

Lemma quiet_logging_info (fmt : string) (args : list json) :
  quiet (logging_info fmt args).
Proof. intros env st. repeat split. Qed.

Lemma quiet_logging_error (fmt : string) (args : list json) :
  quiet (logging_error fmt args).
Proof. intros env st. repeat split. Qed.

Lemma quiet_recv : quiet connection_recv.
Proof.
  intros env st. unfold connection_recv.
  destruct (conn_recv env (recvs (world st))); repeat split.
  cbn. rewrite outbound_calls_snoc. cbn. apply app_nil_r.
Qed.

Create HintDb quiet.
#[local] Hint Resolve quiet_ret quiet_raise quiet_of_result quiet_now
  quiet_get quiet_ask quiet_logging_info quiet_logging_error quiet_recv
  : quiet.

Ltac quiet_steps :=
  repeat (apply quiet_bind; [auto with quiet | intro]); auto with quiet.

Lemma route_map_cases (a : string) (h : Handler) :
  route_map a = Some h ->
  h = on_boot_notification \/ h = on_heartbeat \/ h = on_meter_values \/
  h = on_status_notification \/ h = on_authorize \/ h = on_start_transaction.
Proof.
  unfold route_map.
  repeat match goal with
         | |- context [if ?b then _ else _] => destruct b
         end; intro H; inversion H; auto 10.
Qed.

Lemma quiet_handler (a : string) (h : Handler) :
  route_map a = Some h ->
  forall args kwargs, quiet (h args kwargs).
Proof.
  intros H args kwargs.
  destruct (route_map_cases _ _ H) as [E|[E|[E|[E|[E|E]]]]]; subst h;
    unfold on_boot_notification, on_heartbeat, on_meter_values,
      on_status_notification, on_authorize, on_start_transaction;
    quiet_steps.
Qed.

(** [dispatch] never raises and answers with a result or an error. *)
Lemma dispatch_response (c : Call) (env : Env) (st : State) :
  same_session st (final (dispatch c env st)) /\
  exists e, outcome (dispatch c env st) = Ok e /\
            outbound_of (Sent (encode e)) = [].
Proof.
  unfold dispatch.
  destruct (route_map (action c)) as [h|] eqn:R.
  - pose proof (quiet_handler _ _ R [] (kwargs_of (payload c)) env st) as Q.
    destruct (h [] (kwargs_of (payload c)) env st) as [[p|e] st1];
      (split; [exact Q|]); eexists; split; reflexivity.
  - split; [apply same_session_refl|]. eexists; split; reflexivity.
Qed.

Lemma quiet_send_response (e : Envelope) :
  outbound_of (Sent (encode e)) = [] -> quiet (_send (encode e)).
Proof.
  intros H env st. unfold _send, connection_send.
  destruct (conn_send env (sends (world st))); repeat split.
  cbn [final snd world on_wire wire]. rewrite outbound_calls_snoc, H.
  apply app_nil_r.
Qed.

Lemma quiet_route_message (raw : Message) : quiet (route_message raw).
Proof.
  unfold route_message.
  destruct (decode raw) as [[c|uid p|uid code d det]|err]; auto with quiet.
  intros env st. unfold bind, ask.
  assert (D := dispatch_response c env st).
  destruct (route_map (action c)) as [h|].
  - destruct (validate_payload env c _ocpp_version).
    + destruct D as (Q & e & O & N).
      destruct (dispatch c env st) as [[e'|x] st1]; cbn in O; inversion O; subst.
      eapply same_session_trans; [exact Q|].
      now apply quiet_send_response.
    + cbn [ret]. now apply quiet_send_response.
  - destruct D as (Q & e & O & N).
    destruct (dispatch c env st) as [[e'|x] st1]; cbn in O; inversion O; subst.
    eapply same_session_trans; [exact Q|].
    now apply quiet_send_response.
Qed.
#[local] Hint Resolve quiet_route_message : quiet.


Lemma quiet_receive_and_route : quiet receive_and_route.
Proof. unfold receive_and_route. quiet_steps. Qed.

Lemma start_iteration_run (env : Env) (st : State) :
  start_iteration env st =
  match smart_charging_step env st with
  | (Ok _, st1) => receive_and_route env st1
  | (Raise e, st1) => (Raise e, st1)
  end.
Proof.
  unfold start_iteration, bind at 1.
  destruct (smart_charging_step env st) as [[[]|e] st1]; reflexivity.
Qed.

Lemma start_run (n : nat) (env : Env) (st : State) :
  start (S n) env st =
  match start_iteration env st with
  | (Ok _, st1) => start n env st1
  | (Raise e, st1) => (Raise e, st1)
  end.
Proof.
  cbn [start]. unfold bind at 1.
  destruct (start_iteration env st) as [[[]|e] st1]; reflexivity.
Qed.

(* ================================================================== *)
(** ** What the two profile calls look like on the wire *)
(* ================================================================== *)

Lemma clear_call_payload (uid : string) : payload (clear_call uid) = JObj [].
Proof. reflexivity. Qed.

Lemma outbound_clear (uid : string) :
  outbound_of (Sent (to_json (clear_call uid))) = [ClearProfile].
Proof. reflexivity. Qed.

Lemma outbound_set (uid : string) (t : DateTime) (q : Q) (u : json) :
  outbound_of (Sent (to_json (set_call uid t q u))) = [SetProfile (Some q)].
Proof.
  unfold set_call, wire_payload, asdict, call.SetChargingProfilePayload,
    cs_charging_profiles_of.
  cbn [fields snake_to_camel_case map fst snd remove_nones is_none].
  destruct (is_none (snake_to_camel_case u)); reflexivity.
Qed.

Lemma set_call_unit (uid : string) (t : DateTime) (q : Q) (s : string) :
  rate_unit_of (payload (set_call uid t q (JStr s))) = Some (JStr s).
Proof. reflexivity. Qed.

Lemma outbound_pair (es : list Event) (uid1 uid2 : string) (t : DateTime)
    (q : Q) (u : json) :
  outbound_calls (es ++ [Sent (to_json (clear_call uid1));
                         Sent (to_json (set_call uid2 t q u))]) =
  outbound_calls es ++ [ClearProfile; SetProfile (Some q)].
Proof.
  unfold outbound_calls. rewrite flat_map_app. f_equal.
  cbn [flat_map]. rewrite outbound_clear, outbound_set. reflexivity.
Qed.

(* ================================================================== *)
(** ** One pass of the loop against the policy *)
(* ================================================================== *)


Lemma policy_calls_app (cap : Q) (l1 l2 : list Q) :
  Policy.calls cap (l1 ++ l2) =
  Policy.calls cap l1 ++ Policy.calls (Policy.cap_after cap l1) l2.
Proof.
  revert cap. induction l1 as [|r l1 IH]; intro cap; cbn; [reflexivity|].
  destruct (Policy.decide r cap); cbn; rewrite IH; reflexivity.
Qed.

Lemma policy_cap_app (cap : Q) (l1 l2 : list Q) :
  Policy.cap_after cap (l1 ++ l2) =
  Policy.cap_after (Policy.cap_after cap l1) l2.
Proof.
  revert cap. induction l1 as [|r l1 IH]; intro cap; cbn; [reflexivity|].
  destruct (Policy.decide r cap); apply IH.
Qed.

(** In a cooperative environment an evaluation of a numeric reading does
    what the policy says for that reading. *)
Lemma evaluate_refines (env : Env) (st : State) (q : Q) :
  Cooperative env ->
  reading_value env (http_gets (world st)) = Some q ->
  let r := evaluate_reading env st in
  outcome r = Ok tt /\
  id (self (final r)) = id (self st) /\
  http_gets (world (final r)) = S (http_gets (world st)) /\
  outbound_calls (wire (world (final r))) =
    outbound_calls (wire (world st)) ++
    Policy.calls (_last_max_charge (self st)) [q] /\
  _last_max_charge (self (final r)) =
    Policy.cap_after (_last_max_charge (self st)) [q].
Proof.
  intros [Hv Hs] Hq. unfold reading_value in Hq.
  destruct (inverter env (http_gets (world st))) as [stats|] eqn:Hi;
    [|discriminate].
  destruct (reading_of stats) as [[v u]|] eqn:Hr; [|discriminate].
  cbn [Policy.calls Policy.cap_after]. rewrite clamp_decide.
  destruct (Qeq_bool (clamp q) (_last_max_charge (self st))) eqn:He.
  - cbv zeta. rewrite (evaluate_nochange _ _ _ _ _ _ Hi Hr Hq He).
    cbn. rewrite app_nil_r. repeat split.
  - destruct (evaluate_change env st stats v u q Hi Hr Hq He
                (Hv _ _) (Hs _) (Hv _ _) (Hs _)) as (O & S1 & W1 & G & _).
    cbv zeta. rewrite O, S1, W1, G, outbound_pair. repeat split.
Qed.

(** One pass either skips the evaluation or consumes one reading. *)
Lemma iteration_refines (env : Env) (st : State) :
  Cooperative env ->
  (forall k, reading_value env k <> None) ->
  let st' := final (start_iteration env st) in
  let k := http_gets (world st) in
  id (self st') = id (self st) /\
  exists n,
    http_gets (world st') = (k + n)%nat /\
    outbound_calls (wire (world st')) =
      outbound_calls (wire (world st)) ++
      Policy.calls (_last_max_charge (self st)) (readings env k n) /\
    _last_max_charge (self st') =
      Policy.cap_after (_last_max_charge (self st)) (readings env k n).
Proof.
  intros HC HR. cbv zeta.
  rewrite start_iteration_run, smart_charging_step_run.
  destruct (Z.eqb _ _).
  - destruct (quiet_receive_and_route env (on_world tick_clock st))
      as (Q1 & Q2 & Q3).
    unfold final in *. rewrite Q1, Q2, Q3. split; [reflexivity|].
    exists 0%nat. cbn. rewrite Nat.add_0_r, app_nil_r. repeat split.
  - set (st0 := on_world tick_clock st).
    destruct (reading_value env (http_gets (world st0))) as [q|] eqn:Hq;
      [|now apply HR in Hq].
    destruct (evaluate_refines env st0 q HC Hq) as (O & I & G & W1 & C1).
    assert (Hone : readings env (http_gets (world st)) 1 = [q]).
    { unfold readings, reading_or_zero. cbn.
      change (http_gets (world st0)) with (http_gets (world st)) in Hq.
      now rewrite Hq. }
    destruct (evaluate_reading env st0) as [[[]|e] st1];
      cbn [outcome final fst snd] in *; [|discriminate].
    destruct (quiet_receive_and_route env st1) as (Q1 & Q2 & Q3).
    unfold final in *. rewrite Q1, Q2, Q3. split; [exact I|].
    exists 1%nat. rewrite Hone, G, W1, C1, Nat.add_1_r. repeat split.
Qed.

Lemma readings_app (env : Env) (k n m : nat) :
  readings env k (n + m) = readings env k n ++ readings env (k + n) m.
Proof. unfold readings. now rewrite seq_app, map_app. Qed.

(** Any number of passes: the calls on the wire and the recorded cap are
    those of the policy run over the readings consumed so far. *)
Lemma start_refines (env : Env) :
  Cooperative env ->
  (forall k, reading_value env k <> None) ->
  forall (passes : nat) (st : State),
  let st' := final (start passes env st) in
  let k := http_gets (world st) in
  id (self st') = id (self st) /\
  exists n,
    http_gets (world st') = (k + n)%nat /\
    outbound_calls (wire (world st')) =
      outbound_calls (wire (world st)) ++
      Policy.calls (_last_max_charge (self st)) (readings env k n) /\
    _last_max_charge (self st') =
      Policy.cap_after (_last_max_charge (self st)) (readings env k n).
Proof.
  intros HC HR. induction passes as [|p IH]; intro st; cbv zeta.
  - split; [reflexivity|]. exists 0%nat. cbn.
    rewrite Nat.add_0_r, app_nil_r. repeat split.
  - rewrite start_run.
    destruct (iteration_refines env st HC HR) as (I1 & n1 & G1 & W1 & C1).
    destruct (start_iteration env st) as [[[]|e] st1];
      cbn [final snd] in I1, G1, W1, C1.
    + destruct (IH st1) as (I2 & n2 & G2 & W2 & C2).
      split; [congruence|].
      exists (n1 + n2)%nat.
      rewrite G2, W2, C2, G1, W1, C1, readings_app,
        policy_calls_app, policy_cap_app, app_assoc, Nat.add_assoc.
      repeat split.
    + cbn [final snd]. split; [exact I1|]. exists n1. auto.
Qed.

(** The smart-charging step of a pass: the cases of [evaluate_reading]
    carry over, and a skipped evaluation sends nothing. *)
Lemma smart_charging_step_cases (env : Env) (st : State) :
  let r := smart_charging_step env st in
  let w := world st in
  let w' := world (final r) in
  id (self (final r)) = id (self st) /\
  recvs w' = recvs w /\
  ((outcome r = Ok tt /\ wire w' = wire w /\
    _last_max_charge (self (final r)) = _last_max_charge (self st))
   \/
   (outcome r = Ok tt /\
    exists uid1 uid2 t q u,
      wire w' = wire w ++ [Sent (to_json (clear_call uid1));
                           Sent (to_json (set_call uid2 t q u))] /\
      _last_max_charge (self (final r)) = q)
   \/
   (exists e, outcome r = Raise e /\ self (final r) = self st /\
      (wire w' = wire w \/
       exists uid, wire w' = wire w ++ [Sent (to_json (clear_call uid))]))).
Proof.
  cbv zeta. rewrite smart_charging_step_run.
  destruct (Z.eqb _ _).
  - cbn. repeat split. left. auto.
  - exact (evaluate_reading_cases env (on_world tick_clock st)).
Qed.

(* ================================================================== *)
(** ** C1: order of the clear and the set call *)
(* ================================================================== *)

(** C1, as stated, fails: on a fresh session with a reading of 300 W the
    cycle has put both ClearChargingProfile and SetChargingProfile on the
    wire while nothing at all has been received, so the set call went out
    with the clear call unanswered. *)
Lemma set_sent_while_clear_unanswered :
  outbound_calls
    (wire (world (final (smart_charging_step Scenario.env_watts
                                             Scenario.fresh)))) =
    [ClearProfile; SetProfile (Some 300%Q)] /\
  recvs (world (final (smart_charging_step Scenario.env_watts
                                           Scenario.fresh))) = 0%nat /\
  clear_resolved_before_set
    (wire (world (final (smart_charging_step Scenario.env_watts
                                             Scenario.fresh)))) = false.
Proof. vm_compute. repeat split. Qed.

(** C1, amended: in every smart-charging cycle the frames put on the
    connection are none, or the clear call alone (the cycle then raises),
    or the clear call directly followed by the set call; the cycle
    receives nothing, so the set call is sent after the clear call was
    transmitted, without waiting for its response. *)
Theorem clear_transmitted_before_set (env : Env) (st : State) :
  let r := smart_charging_step env st in
  let w := world st in
  let w' := world (final r) in
  recvs w' = recvs w /\
  (wire w' = wire w \/
   (exists uid e,
      wire w' = wire w ++ [Sent (to_json (clear_call uid))] /\
      outcome r = Raise e) \/
   (exists uid1 uid2 t q u,
      wire w' = wire w ++ [Sent (to_json (clear_call uid1));
                           Sent (to_json (set_call uid2 t q u))] /\
      outcome r = Ok tt)).
Proof.
  destruct (smart_charging_step_cases env st)
    as (_ & R & [(_ & W & _)|[(O & u1 & u2 & t & q & u & W & _)
                             |(e & O & _ & [W|(uid & W)])]]);
    cbv zeta; (split; [exact R|]); eauto 10.
Qed.

(* ================================================================== *)
(** ** C2: a reading whose unit is not W *)
(* ================================================================== *)

(** C2, as stated, fails: the inverter reports 300 with unit "A"; the
    cycle on a fresh session issues both calls and records 300 as the
    cap. *)
Lemma unit_mismatch_is_applied :
  reading_of (Scenario.fronius (JNum 300) (JStr "A"))
    = Ok (JNum 300, JStr "A") /\
  py_eq_str (JStr "A") "W" = false /\
  outbound_calls
    (wire (world (final (smart_charging_step Scenario.env_amps
                                             Scenario.fresh)))) =
    [ClearProfile; SetProfile (Some 300%Q)] /\
  _last_max_charge (self Scenario.fresh) = 0%Q /\
  _last_max_charge
    (self (final (smart_charging_step Scenario.env_amps Scenario.fresh)))
    = 300%Q.
Proof. vm_compute. repeat split. Qed.

(** An evaluation whose set call is refused by the validator, after the
    clear call went out. *)
Lemma evaluate_set_rejected (env : Env) (st : State) (stats v u : json)
    (q : Q) :
  let w := world st in
  let uid1 := uuid4 env (ids_made w) in
  let uid2 := uuid4 env (S (ids_made w)) in
  let t := clock env (clock_reads w) in
  inverter env (http_gets w) = Ok stats ->
  reading_of stats = Ok (v, u) ->
  as_number v = Some q ->
  Qeq_bool (clamp q) (_last_max_charge (self st)) = false ->
  validate_payload env (clear_call uid1) _ocpp_version = true ->
  conn_send env (sends w) = true ->
  validate_payload env (set_call uid2 t (clamp q) u) _ocpp_version = false ->
  let r := evaluate_reading env st in
  outcome r = Raise ValidationError /\
  self (final r) = self st /\
  wire (world (final r)) = wire w ++ [Sent (to_json (clear_call uid1))].
Proof.
  intros w uid1 uid2 t Hi Hr Hn He Hv1 Hs1 Hv2 r.
  subst r w uid1 uid2 t.
  rewrite evaluate_reading_run, (read_power_ok _ _ _ _ _ Hi Hr), Hn.
  cbn [after_read on_world self]. rewrite He.
  rewrite clear_run, send_payload_run. cbv zeta.
  change (mkCall _ (drop_last 7 (class_name call.ClearChargingProfilePayload)) _)
    with (clear_call (uuid4 env (ids_made (world st)))).
  rewrite Hv1. cbn [after_read on_world world self sends logged tick_http].
  rewrite Hs1.
  rewrite set_run, send_payload_run. cbv zeta.
  cbn [after_read on_world world self sends logged tick_http tick_sends
       tick_ids tick_clock on_wire ids_made clock_reads].
  change (mkCall _ (drop_last 7 (class_name (call.SetChargingProfilePayload _ _))) _)
    with (set_call (uuid4 env (S (ids_made (world st))))
                   (clock env (clock_reads (world st))) (clamp q) u).
  rewrite Hv2. cbn. repeat split; reflexivity.
Qed.

(** C2, amended: the cycle does not look at the unit string.  For a
    reading with any unit string, in particular one that is not "W": if
    the clamped value equals the last-applied cap nothing is sent and the
    cap is unchanged; otherwise the clear call is sent and the set call is
    built with the reading's unit string unchanged as its
    chargingRateUnit; when the validator accepts it both calls are on the
    wire and the clamped value is recorded, when it rejects it the cycle
    raises after the clear call with the cap unchanged. *)
Theorem unit_is_forwarded_unchecked (env : Env) (st : State)
    (stats v : json) (s : string) (q : Q) :
  let w := world st in
  let uid1 := uuid4 env (ids_made w) in
  let uid2 := uuid4 env (S (ids_made w)) in
  let t := clock env (clock_reads w) in
  inverter env (http_gets w) = Ok stats ->
  reading_of stats = Ok (v, JStr s) ->
  as_number v = Some q ->
  validate_payload env (clear_call uid1) _ocpp_version = true ->
  conn_send env (sends w) = true ->
  conn_send env (S (sends w)) = true ->
  let r := evaluate_reading env st in
  let set := set_call uid2 t (clamp q) (JStr s) in
  if Qeq_bool (clamp q) (_last_max_charge (self st))
  then outcome r = Ok tt /\
       wire (world (final r)) = wire w /\
       _last_max_charge (self (final r)) = _last_max_charge (self st)
  else rate_unit_of (payload set) = Some (JStr s) /\
       if validate_payload env set _ocpp_version
       then outcome r = Ok tt /\
            wire (world (final r)) =
              wire w ++ [Sent (to_json (clear_call uid1));
                         Sent (to_json set)] /\
            _last_max_charge (self (final r)) = clamp q
       else outcome r = Raise ValidationError /\
            wire (world (final r)) =
              wire w ++ [Sent (to_json (clear_call uid1))] /\
            _last_max_charge (self (final r)) = _last_max_charge (self st).
Proof.
  intros w uid1 uid2 t Hi Hr Hn Hv1 Hs1 Hs2 r set.
  destruct (Qeq_bool (clamp q) (_last_max_charge (self st))) eqn:He.
  - subst r. rewrite (evaluate_nochange _ _ _ _ _ _ Hi Hr Hn He).
    repeat split.
  - split; [apply set_call_unit|].
    destruct (validate_payload env set _ocpp_version) eqn:Hv2.
    + destruct (evaluate_change env st stats v (JStr s) q
                  Hi Hr Hn He Hv1 Hs1 Hv2 Hs2) as (O & S1 & W1 & _).
      subst r. rewrite S1. auto.
    + destruct (evaluate_set_rejected env st stats v (JStr s) q
                  Hi Hr Hn He Hv1 Hs1 Hv2) as (O & S1 & W1).
      subst r. rewrite S1. auto.
Qed.

Lemma unit_is_forwarded_unchecked_witness :
  outcome (evaluate_reading Scenario.env_amps Scenario.fresh) = Ok tt /\
  wire (world (final (evaluate_reading Scenario.env_amps Scenario.fresh))) =
    [Sent (to_json (clear_call (Scenario.uid 0)));
     Sent (to_json (set_call (Scenario.uid 1) (Scenario.advancing_clock 0)
                             (clamp 300) (JStr "A")))] /\
  _last_max_charge
    (self (final (evaluate_reading Scenario.env_amps Scenario.fresh)))
    = clamp 300.
Proof.
  exact (proj2 (unit_is_forwarded_unchecked
           Scenario.env_amps
           Scenario.fresh (Scenario.fronius (JNum 300) (JStr "A"))
           (JNum 300) "A" 300%Q
           eq_refl eq_refl eq_refl eq_refl eq_refl eq_refl)).
Defined.

(* ================================================================== *)
(** ** C3: a cycle whose outbound call fails *)
(* ================================================================== *)

(** C3, as stated, fails: with a connection that takes no frame the first
    cycle raises out of [start]; of five passes on a clock that advances
    every reading only one evaluation takes place, and [on_connect] ends
    with the exception instead of retrying at the next minute. *)
Lemma failed_send_crashes_session :
  outcome (start 5 Scenario.env_offline Scenario.fresh)
    = Raise ConnectionClosed /\
  http_gets (world (final (start 5 Scenario.env_offline Scenario.fresh)))
    = 1%nat /\
  recvs (world (final (start 5 Scenario.env_offline Scenario.fresh)))
    = 0%nat /\
  result (on_connect 5 (handshake (Some ["ocpp1.6"])) "/CP_1"
                     Scenario.env_offline Scenario.quiet_world)
    = Raise ConnectionClosed.
Proof. vm_compute. repeat split. Qed.

(** A cycle that has a profile change to push and meets a refusal - the
    validator rejects the clear or the set call, or the connection does
    not take one of the two frames - raises. *)
Lemma refused_call_raises (env : Env) (st : State) (stats v u : json)
    (q : Q) :
  let w := world st in
  let uid1 := uuid4 env (ids_made w) in
  let uid2 := uuid4 env (S (ids_made w)) in
  let t := clock env (clock_reads w) in
  inverter env (http_gets w) = Ok stats ->
  reading_of stats = Ok (v, u) ->
  as_number v = Some q ->
  Qeq_bool (clamp q) (_last_max_charge (self st)) = false ->
  validate_payload env (clear_call uid1) _ocpp_version = false \/
  conn_send env (sends w) = false \/
  validate_payload env (set_call uid2 t (clamp q) u) _ocpp_version = false \/
  conn_send env (S (sends w)) = false ->
  exists e, outcome (evaluate_reading env st) = Raise e.
Proof.
  intros w uid1 uid2 t Hi Hr Hn He Href. subst w uid1 uid2 t.
  rewrite evaluate_reading_run, (read_power_ok _ _ _ _ _ Hi Hr), Hn.
  cbn [after_read on_world self]. rewrite He.
  pose proof (clear_cases env (after_read v u st)) as C. cbv zeta in C.
  fold (after_read v u st).
  destruct (clear_smart_charge_profile env (after_read v u st))
    as [[[]|e1] st2]; cbn [final outcome fst snd] in C |- *; [|eauto].
  destruct C as (_ & _ & _ & Ck & Ci & [(_ & V1 & S1 & Cs & _)|(e & X & _)]);
    [|discriminate].
  cbn [after_read on_world world ids_made sends clock_reads logged tick_http]
    in V1, S1, Ck, Ci, Cs.
  pose proof (set_cases (clamp q) u env st2) as D. cbv zeta in D.
  rewrite Ci, Ck, Cs in D.
  destruct (set_smart_charge_profile (clamp q) u env st2)
    as [[[]|e2] st3]; cbn [final outcome fst snd] in D |- *; [|eauto].
  destruct D as (_ & _ & _ & _ & _ & [(_ & V2 & S2 & _)|(e & X & _)]);
    [|discriminate].
  destruct Href as [H|[H|[H|H]]]; congruence.
Qed.

(** C3, amended: a cycle in which the validator rejects one of the two
    calls, or the connection refuses one of the two frames, raises; and
    when a smart-charging cycle raises, the rest of the cycle is not run:
    no set call has been sent (at most the clear call), the last-applied
    cap and the last-evaluated minute are left as they were, and the
    exception leaves [start], which ends the session loop in the state
    the failed cycle left; nothing is retried. *)
Theorem failed_cycle_ends_session (env : Env) (st : State) (e : Exn) :
  outcome (smart_charging_step env st) = Raise e ->
  let st' := final (smart_charging_step env st) in
  self st' = self st /\
  (outbound_calls (wire (world st')) = outbound_calls (wire (world st)) \/
   outbound_calls (wire (world st')) =
     outbound_calls (wire (world st)) ++ [ClearProfile]) /\
  (forall passes, start (S passes) env st = (Raise e, st')) /\
  (forall st0 stats v u q,
     inverter env (http_gets (world st0)) = Ok stats ->
     reading_of stats = Ok (v, u) ->
     as_number v = Some q ->
     Qeq_bool (clamp q) (_last_max_charge (self st0)) = false ->
     validate_payload env (clear_call (uuid4 env (ids_made (world st0))))
                      _ocpp_version = false \/
     conn_send env (sends (world st0)) = false \/
     validate_payload env
       (set_call (uuid4 env (S (ids_made (world st0))))
                 (clock env (clock_reads (world st0))) (clamp q) u)
       _ocpp_version = false \/
     conn_send env (S (sends (world st0))) = false ->
     exists e0, outcome (evaluate_reading env st0) = Raise e0).
Proof.
  intros H st'. subst st'.
  destruct (smart_charging_step_cases env st)
    as (_ & _ & [(O & _)|[(O & _)|(e' & O & S1 & W)]]);
    try (rewrite H in O; discriminate).
  split; [exact S1|]. split; [|split].
  - destruct W as [W|(uid & W)]; rewrite W.
    + now left.
    + right. rewrite outbound_calls_snoc, outbound_clear. reflexivity.
  - intro passes. rewrite start_run, start_iteration_run.
    destruct (smart_charging_step env st) as [[[]|x] st1];
      cbn [outcome final fst snd] in *; [discriminate|].
    congruence.
  - intros st0 stats v u q. apply refused_call_raises.
Qed.

Lemma failed_cycle_ends_session_witness :
  outcome (smart_charging_step Scenario.env_offline Scenario.fresh)
    = Raise ConnectionClosed /\
  self (final (smart_charging_step Scenario.env_offline Scenario.fresh))
    = self Scenario.fresh /\
  start 3 Scenario.env_offline Scenario.fresh =
    (Raise ConnectionClosed,
     final (smart_charging_step Scenario.env_offline Scenario.fresh)).
Proof.
  split; [reflexivity|].
  pose proof (failed_cycle_ends_session
                Scenario.env_offline
                Scenario.fresh ConnectionClosed eq_refl) as H.
  cbv zeta in H. destruct H as (H1 & _ & H3 & _).
  split; [exact H1 | exact (H3 2%nat)].
Defined.

(* ================================================================== *)
(** ** C4: hysteresis *)
(* ================================================================== *)

Lemma hysteresis_readings_numeric (k : nat) :
  reading_value Scenario.env_hysteresis k <> None.
Proof.
  do 3 (destruct k as [|k]; [discriminate|]). discriminate.
Qed.

Lemma permissive_cooperative (responses : nat -> Result json) :
  Cooperative (Scenario.permissive responses).
Proof. split; intros; reflexivity. Qed.

(** C4: in an environment that refuses no call and whose readings are
    numbers, (a) an evaluation does what [Policy.decide] says for its
    reading: on NoChange it puts nothing on the wire and keeps the cap, on
    a new cap it issues exactly the pair (clear, set with that limit) and
    records the cap; (b) after any number of passes of the loop the calls
    issued and the cap recorded are those of the policy run over the
    readings evaluated so far; (c) when the first four readings are 300,
    300, 300, 250 and four evaluations have taken place on a new session,
    exactly two pairs were issued: one for 300 and one for 250. *)
Theorem profile_calls_follow_policy (env : Env) :
  Cooperative env ->
  (forall k, reading_value env k <> None) ->
  (forall st q,
     reading_value env (http_gets (world st)) = Some q ->
     let r := evaluate_reading env st in
     outcome r = Ok tt /\
     match Policy.decide q (_last_max_charge (self st)) with
     | Policy.NoChange =>
         wire (world (final r)) = wire (world st) /\
         _last_max_charge (self (final r)) = _last_max_charge (self st)
     | Policy.NewCap c =>
         outbound_calls (wire (world (final r))) =
           outbound_calls (wire (world st)) ++
           [ClearProfile; SetProfile (Some c)] /\
         _last_max_charge (self (final r)) = c
     end) /\
  (forall passes st,
     let st' := final (start passes env st) in
     let k := http_gets (world st) in
     exists n,
       http_gets (world st') = (k + n)%nat /\
       outbound_calls (wire (world st')) =
         outbound_calls (wire (world st)) ++
         Policy.calls (_last_max_charge (self st)) (readings env k n) /\
       _last_max_charge (self st') =
         Policy.cap_after (_last_max_charge (self st)) (readings env k n)) /\
  (readings env 0 4 = [300; 300; 300; 250]%Q ->
   forall passes cp_id w,
     http_gets w = 0%nat ->
     let st' := final (start passes env (mkState (new_ChargePoint cp_id) w)) in
     http_gets (world st') = 4%nat ->
     outbound_calls (wire (world st')) =
       outbound_calls (wire w) ++
       [ClearProfile; SetProfile (Some 300%Q);
        ClearProfile; SetProfile (Some 250%Q)]).
Proof.
  intros HC HR. split; [|split].
  - intros st q Hq r.
    destruct (evaluate_refines env st q HC Hq) as (O & _ & _ & W & C).
    fold r in O, W, C. split; [exact O|].
    cbn [Policy.calls Policy.cap_after] in W, C.
    destruct (Policy.decide q (_last_max_charge (self st))) eqn:D.
    + split; [|exact C].
      subst r. unfold reading_value in Hq.
      destruct (inverter env (http_gets (world st))) as [stats|] eqn:Hi;
        [|discriminate].
      destruct (reading_of stats) as [[v u]|] eqn:Hr; [|discriminate].
      rewrite clamp_decide in D.
      destruct (Qeq_bool (clamp q) (_last_max_charge (self st))) eqn:He;
        [|discriminate].
      rewrite (evaluate_nochange _ _ _ _ _ _ Hi Hr Hq He). reflexivity.
    + split; [exact W|exact C].
  - intros passes st.
    destruct (start_refines env HC HR passes st) as (_ & n & H). eauto.
  - intros H4 passes cp_id w Hw st' Hg.
    destruct (start_refines env HC HR passes (mkState (new_ChargePoint cp_id) w))
      as (_ & n & G & W & _).
    fold st' in G, W. cbn [world self http_gets] in G, W.
    rewrite Hw in G, W. rewrite Hg in G. cbn in G. subst n.
    rewrite W, H4. reflexivity.
Qed.

Lemma profile_calls_follow_policy_witness :
  Cooperative Scenario.env_hysteresis /\
  readings Scenario.env_hysteresis 0 4 = [300; 300; 300; 250]%Q /\
  http_gets (world (final (start 4 Scenario.env_hysteresis Scenario.fresh)))
    = 4%nat /\
  outbound_calls
    (wire (world (final (start 4 Scenario.env_hysteresis Scenario.fresh)))) =
    [ClearProfile; SetProfile (Some 300%Q);
     ClearProfile; SetProfile (Some 250%Q)].
Proof.
  split; [apply permissive_cooperative|].
  split; [reflexivity|].
  split; [reflexivity|].
  exact (proj2 (proj2 (profile_calls_follow_policy
           Scenario.env_hysteresis
           (permissive_cooperative _) hysteresis_readings_numeric))
         eq_refl 4%nat "CP_1" Scenario.quiet_world eq_refl eq_refl).
Defined.

(* ================================================================== *)
(** ** C5: the floor of 240 *)
(* ================================================================== *)






(* ================================================================== *)
(** ** C6: the StartTransaction handler *)
(* ================================================================== *)

(** Called with its four parameters bound by position, the handler
    returns the fixed payload. *)
Lemma start_transaction_positional (a b c d : json) (env : Env) (st : State) :
  on_start_transaction [a; b; c; d] [] env st =
  (Ok (call_result.StartTransactionPayload 1 accepted_tag), st).
Proof. reflexivity. Qed.

(** Called by keyword, the handler needs a keyword named
    [_connector_id]. *)
Lemma start_transaction_needs_underscore (kwargs : list (string * json))
    (env : Env) (st : State) :
  assoc "_connector_id" kwargs = None ->
  on_start_transaction [] kwargs env st = (Raise TypeError, st).
Proof.
  intro H. unfold on_start_transaction, bind, of_result, bind_signature.
  cbn [bind_params]. rewrite H. reflexivity.
Qed.

(** C6: a StartTransaction call with the fields connectorId, idTag,
    meterStart and timestamp reaches the handler as the keywords
    connector_id, id_tag, meter_start and timestamp; none of them binds
    the parameters [_connector_id], [_id_tag], [_meter_start],
    [_timestamp], the handler raises [TypeError], and the charge point is
    answered with a CallError instead of the payload with transaction id
    1. *)
Theorem start_transaction_handler_raises (env : Env) (st : State) :
  kwargs_of (payload Scenario.start_transaction_call) =
    [("connector_id", JNum 1); ("id_tag", JStr "ABC123");
     ("meter_start", JNum 0); ("timestamp", JStr "2023-06-01T12:00:00Z")] /\
  on_start_transaction [] (kwargs_of (payload Scenario.start_transaction_call))
                       env st = (Raise TypeError, st) /\
  dispatch Scenario.start_transaction_call env st =
    (Ok (ECallError "tx-1" "InternalError" "TypeError" (JObj [])), st).
Proof. repeat split. Qed.

(* ================================================================== *)
(** ** C7: the gatekeeper *)
(* ================================================================== *)

Lemma start_keeps_id (passes : nat) (env : Env) (st : State) :
  id (self (final (start passes env st))) = id (self st).
Proof.
  revert st. induction passes as [|p IH]; intro st; [reflexivity|].
  rewrite start_run, start_iteration_run.
  destruct (smart_charging_step_cases env st) as (I & _).
  destruct (smart_charging_step env st) as [[[]|e] st1];
    cbn [final snd] in I; [|exact I].
  destruct (quiet_receive_and_route env st1) as (Q & _).
  destruct (receive_and_route env st1) as [[[]|e] st2];
    cbn [final snd] in Q |- *.
  - rewrite IH. congruence.
  - congruence.
Qed.

Lemma lstrip_spec (s : string) :
  starts_with "/" (lstrip "/" s) = false /\
  exists a, s = (slashes a ++ lstrip "/" s)%string.
Proof.
  induction s as [|c s (IH1 & a & IH2)].
  - split; [reflexivity|]. now exists 0%nat.
  - cbn [lstrip]. destruct (Ascii.eqb c "/") eqn:E.
    + split; [exact IH1|]. exists (S a). cbn.
      apply Ascii.eqb_eq in E. subst c. now rewrite <- IH2.
    + split; [exact E|]. now exists 0%nat.
Qed.

Lemma rstrip_spec (s : string) :
  ends_with "/" (rstrip "/" s) = false /\
  (starts_with "/" s = false -> starts_with "/" (rstrip "/" s) = false) /\
  exists b, s = (rstrip "/" s ++ slashes b)%string.
Proof.
  induction s as [|c s (IH1 & IH2 & b & IH3)].
  - repeat split. now exists 0%nat.
  - cbn [rstrip]. destruct (rstrip "/" s) as [|c' r] eqn:R.
    + destruct (Ascii.eqb c "/") eqn:E.
      * repeat split. exists (S b). cbn.
        apply Ascii.eqb_eq in E. subst c. cbn in IH3. now rewrite <- IH3.
      * repeat split; [exact E|auto|].
        exists b. cbn. cbn in IH3. now rewrite <- IH3.
    + repeat split; [exact IH1|auto|].
      exists b. cbn. cbn in IH3. now rewrite <- IH3.
Qed.

Lemma strip_spec (path : string) :
  starts_with "/" (strip "/" path) = false /\
  ends_with "/" (strip "/" path) = false /\
  exists a b, path = (slashes a ++ strip "/" path ++ slashes b)%string.
Proof.
  unfold strip.
  destruct (lstrip_spec path) as (L1 & a & L2).
  destruct (rstrip_spec (lstrip "/" path)) as (R1 & R2 & b & R3).
  repeat split; [auto|exact R1|].
  exists a, b. now rewrite <- R3.
Qed.

Lemma negotiated_truthy (l : list string) :
  truthy (negotiate l ["ocpp1.6"]) = mem "ocpp1.6" l.
Proof.
  unfold negotiate, mem. induction l as [|p l IH]; [reflexivity|].
  cbn [find existsb]. rewrite orb_false_r.
  rewrite (String.eqb_sym "ocpp1.6" p).
  destruct (String.eqb p "ocpp1.6") eqn:E.
  - apply String.eqb_eq in E. subst p. reflexivity.
  - exact IH.
Qed.

(** What [on_connect] does with a websocket, by the attributes it
    reads. *)
Lemma on_connect_cases (passes : nat) (ws : WebSocket) (path : string)
    (env : Env) (w : World) :
  let c := on_connect passes ws path env w in
  match assoc "Sec-WebSocket-Protocol" (request_headers ws) with
  | None => refused w c
  | Some _ =>
      if truthy (subprotocol ws)
      then exists cp, session c = Some cp /\ id cp = strip "/" path
      else refused w c
  end.
Proof.
  cbv zeta. unfold on_connect.
  destruct (assoc "Sec-WebSocket-Protocol" (request_headers ws)).
  - destruct (truthy (subprotocol ws)).
    + eexists. split; [reflexivity|].
      cbn [session]. now rewrite start_keeps_id.
    + repeat split. cbn. rewrite outbound_calls_snoc. apply app_nil_r.
  - repeat split. cbn. rewrite outbound_calls_snoc. apply app_nil_r.
Qed.

(** C7: a connection whose request carries no subprotocol header, or
    whose websocket has no negotiated subprotocol, is closed without a
    session and without any call; otherwise a session is created whose id
    is the path without its leading and trailing slashes.  In terms of
    the handshake: no subprotocol offered, or "ocpp1.6" not among the
    offered ones, is refused; "ocpp1.6" offered gives a session, which
    starts with the cap 0 and the minute -1. *)
Theorem gatekeeper (passes : nat) (ws : WebSocket)
    (offered : option (list string)) (path : string) (env : Env) (w : World) :
  (let c := on_connect passes ws path env w in
   match assoc "Sec-WebSocket-Protocol" (request_headers ws) with
   | None => refused w c
   | Some _ =>
       if truthy (subprotocol ws)
       then exists cp, session c = Some cp /\ id cp = strip "/" path
       else refused w c
   end) /\
  (let c := on_connect passes (handshake offered) path env w in
   match offered with
   | None => refused w c
   | Some l =>
       if mem "ocpp1.6" l
       then exists cp, session c = Some cp /\ id cp = strip "/" path
       else refused w c
   end) /\
  session (on_connect 0 (handshake (Some ["ocpp1.6"])) path env w) =
    Some (new_ChargePoint (strip "/" path)) /\
  (starts_with "/" (strip "/" path) = false /\
   ends_with "/" (strip "/" path) = false /\
   exists a b, path = (slashes a ++ strip "/" path ++ slashes b)%string).
Proof.
  split; [apply on_connect_cases|].
  split; [|split; [reflexivity|apply strip_spec]].
  pose proof (on_connect_cases passes (handshake offered) path env w) as H.
  cbv zeta in H |- *. destruct offered as [l|].
  - change (assoc "Sec-WebSocket-Protocol"
              (request_headers (handshake (Some l))))
      with (Some (String.concat ", " l)) in H.
    change (subprotocol (handshake (Some l)))
      with (negotiate l ["ocpp1.6"]) in H.
    cbv beta iota in H. rewrite negotiated_truthy in H. exact H.
  - exact H.
Qed.

(* ================================================================== *)
(** ** C8: validated, null-free outbound calls *)
(* ================================================================== *)

Lemma remove_nones_keeps_value (d : json) :
  is_none d = false -> is_none (remove_nones d) = false.
Proof. destruct d; intro H; try discriminate; reflexivity. Qed.

Lemma remove_nones_null_free (d : json) : no_null_keys (remove_nones d) = true.
Proof.
  induction d as [| | | |l IH|kv IH] using json_induction; try reflexivity.
  - cbn [remove_nones no_null_keys].
    induction IH as [|v rest Hv _ IHrest]; [reflexivity|].
    destruct (is_none v) eqn:N; [exact IHrest|].
    now rewrite Hv, IHrest.
  - cbn [remove_nones no_null_keys].
    induction IH as [|[k v] rest Hv _ IHrest]; [reflexivity|].
    cbn [snd] in Hv.
    destruct (is_none v) eqn:N; [exact IHrest|].
    now rewrite (remove_nones_keeps_value v N), Hv, IHrest.
Qed.

(** C8: [send_payload] hands a frame to the connection only after the
    validator accepted the call it carries, and the payload of that call
    has no key with a null value: with the call refused nothing is
    transmitted and the validator's exception is raised. *)
Theorem outbound_call_validated_null_free (p : Payload) (env : Env)
    (st : State) :
  let r := send_payload p env st in
  let c := mkCall (uuid4 env (ids_made (world st)))
                  (drop_last 7 (class_name p)) (wire_payload p) in
  no_null_keys (payload c) = true /\
  if validate_payload env c _ocpp_version
  then (outcome r = Ok tt /\
        wire (world (final r)) = wire (world st) ++ [Sent (to_json c)])
       \/
       (outcome r = Raise ConnectionClosed /\
        wire (world (final r)) = wire (world st))
  else outcome r = Raise ValidationError /\
       wire (world (final r)) = wire (world st).
Proof.
  cbv zeta. split; [apply remove_nones_null_free|].
  rewrite send_payload_run. cbv zeta.
  destruct (validate_payload env _ _ocpp_version).
  - destruct (conn_send env (sends (world st))); [left|right]; split;
      reflexivity.
  - split; reflexivity.
Qed.

(* ================================================================== *)
(** ** C9: [read_power] on incomplete responses *)
(* ================================================================== *)





(* ================================================================== *)
(** ** C10: the first evaluation of a new session *)
(* ================================================================== *)

(** C10: a session object starts with the cap 0 and the minute -1; since
    the clock's minute is never -1 its first pass evaluates, and since a
    clamped reading is at least 240, hence not 0, that evaluation issues
    the pair (clear, set with the clamped reading) and records the
    clamped reading. *)
Theorem first_evaluation_issues_pair (env : Env) (cp_id : string)
    (w : World) (q : Q) :
  Cooperative env ->
  reading_value env (http_gets w) = Some q ->
  0 <= minute (clock env (clock_reads w)) < 60 ->
  let st := mkState (new_ChargePoint cp_id) w in
  let r := smart_charging_step env st in
  _last_max_charge (self st) = 0%Q /\
  _last_profile_sent (self st) = -1 /\
  (240 <= clamp q)%Q /\
  Qeq_bool (clamp q) (_last_max_charge (self st)) = false /\
  outcome r = Ok tt /\
  outbound_calls (wire (world (final r))) =
    outbound_calls (wire w) ++ [ClearProfile; SetProfile (Some (clamp q))] /\
  _last_max_charge (self (final r)) = clamp q.
Proof.
  intros HC Hq Hm st r.
  assert (Hne : Qeq_bool (clamp q) 0 = false).
  { destruct (Qeq_bool (clamp q) 0) eqn:E; [|reflexivity].
    apply Qeq_bool_iff in E. pose proof (clamp_floor q) as F.
    rewrite E in F. exfalso. revert F. apply Qlt_not_le. reflexivity. }
  split; [reflexivity|]. split; [reflexivity|].
  split; [apply clamp_floor|]. split; [exact Hne|].
  subst r. rewrite smart_charging_step_run.
  cbn [st self world _last_profile_sent new_ChargePoint].
  destruct (Z.eqb_spec (-1) (minute (clock env (clock_reads w)))) as [E|_];
    [lia|].
  destruct (evaluate_refines env (on_world tick_clock st) q HC Hq)
    as (O & _ & _ & W & C).
  cbn [Policy.calls Policy.cap_after] in W, C.
  rewrite clamp_decide in W, C.
  change (_last_max_charge (self (on_world tick_clock st))) with 0%Q in W, C.
  rewrite Hne in W, C.
  repeat split; assumption.
Qed.

Lemma first_evaluation_issues_pair_witness :
  0 <= minute (Scenario.advancing_clock 0) < 60 /\
  outcome (smart_charging_step Scenario.env_low Scenario.fresh) = Ok tt /\
  outbound_calls
    (wire (world (final (smart_charging_step Scenario.env_low
                                             Scenario.fresh)))) =
    [ClearProfile; SetProfile (Some (clamp 100))].
Proof.
  assert (Hm : 0 <= minute (Scenario.advancing_clock 0) < 60) by (cbn; lia).
  split; [exact Hm|].
  pose proof (first_evaluation_issues_pair
                Scenario.env_low
                "CP_1" Scenario.quiet_world 100%Q
                (permissive_cooperative _) eq_refl Hm) as H.
  exact (conj (proj1 (proj2 (proj2 (proj2 (proj2 H)))))
              (proj1 (proj2 (proj2 (proj2 (proj2 (proj2 H))))))).
Defined.
